(** * The story-run simulator: game state, history, crafting, loot and hunts

    A shallow embedding of [main.py].  Python dictionaries are finite maps
    ([gmap]) keyed by strings, Python integers are [Z], and the quantities the
    program keeps as floating-point numbers (resource amounts, drop amounts,
    the loot multiplier, the lifetime gem gain) live in an abstract number
    type [R] that only offers the arithmetic and comparisons the program
    uses.  Numbers are identified by value, as Python's [==] does, so the
    conversion [float(x)] is the identity on [R] and [int(x)] is the identity
    on [Z].

    Every handler of [SimulatorApp] that mutates the game works on
    [self.state.clone()] and either commits the clone or returns early; it is
    embedded as a function from the current state to an [Outcome].  The
    random module is replaced by an explicit record of draws ([Rng]). *)

From Stdlib Require Import ZArith QArith Ascii Lia.
From stdpp Require Import gmap strings pretty list fin_maps.

Local Open Scope Z_scope.
Local Open Scope string_scope.
Local Open Scope list_scope.

(** ** Python primitives the program relies on *)

(** Arithmetic and comparisons on the floating-point quantities. *)
Class PyNum (R : Type) := {
  num_lit : Q -> R;
  num_add : R -> R -> R;
  num_sub : R -> R -> R;
  num_mul : R -> R -> R;
  num_leb : R -> R -> bool;
  num_ltb : R -> R -> bool;
  num_eqb : R -> R -> bool;
}.

(** The string builtins used on entry fields: [str.strip], [int(str)] and
    [float(str)]; the last two answer [None] where Python raises
    [ValueError]. *)
Class PyText (R : Type) := {
  str_strip : string -> string;
  int_of_str : string -> option Z;
  float_of_str : string -> option R;
}.

Definition num_of_Z {R} {pynum : PyNum R} (z : Z) : R := num_lit (inject_Z z).

(** What a handler does with the state it was called on. *)
Inductive Outcome (S : Type) : Type :=
| Committed (s' : S)
| Rejected (dialog : string)
| Raised (error : string).
Arguments Committed {S} s'.
Arguments Rejected {S} dialog.
Arguments Raised {S} error.

(** ** Core configuration *)

Definition RESOURCE_KEYS : list string :=
  ["mallets"; "T1 cheese"; "T2 cheese"; "T3 cheese"; "Thread"; "Machinery"; "Diamond"].
Definition CONSUMABLE_KEYS : list string := ["CC"; "hooks"; "Gold"; "ME"].
Definition BASE_GENRES : list string :=
  ["Romance"; "Adventure"; "Comedy"; "Tragedy"; "Suspense"].
Definition FANTASY_GENRE : string := "Fantasy".
Definition CHAPTER_LENGTHS : list Z := [10; 20; 30].
Definition TOTAL_CHAPTERS : Z := 6.

Record CheeseRule := {
  rule_resource : string;
  rule_page_gain : Z;
  rule_chapter_enemy : string;
  rule_post_enemy : string;
  rule_post_fantasy_enemy : string;
  rule_notoriety_gain : Z;
}.

Definition CHEESE_HUNT_RULES : gmap string CheeseRule :=
  list_to_map [
    ("T1", {| rule_resource := "T1 cheese"; rule_page_gain := 25;
              rule_chapter_enemy := "T1 mouse";
              rule_post_enemy := "Common Weaver - With T1 Cheese";
              rule_post_fantasy_enemy := "Ultimate MythWeaver - With T1 Cheese";
              rule_notoriety_gain := 25 |});
    ("T2", {| rule_resource := "T2 cheese"; rule_page_gain := 50;
              rule_chapter_enemy := "T2 mouse";
              rule_post_enemy := "Common Weaver - With T2 Cheese";
              rule_post_fantasy_enemy := "Ultimate MythWeaver - With T2 Cheese";
              rule_notoriety_gain := 50 |});
    ("T3", {| rule_resource := "T3 cheese"; rule_page_gain := 125;
              rule_chapter_enemy := "T3 mouse";
              rule_post_enemy := "Common Weaver - With T3 Cheese";
              rule_post_fantasy_enemy := "Ultimate MythWeaver - With T3 Cheese";
              rule_notoriety_gain := 125 |})
  ].

Record Recipe := {
  recipe_label : string;
  recipe_outputs : list (string * Z);
  recipe_costs : list (string * Z);
}.

Definition RECIPES : list Recipe := [
  {| recipe_label := "6 hook + 2000 Gold → 1 T1 cheese";
     recipe_outputs := [("T1 cheese", 1)];
     recipe_costs := [("hooks", 6); ("Gold", 2000)] |};
  {| recipe_label := "6 hook + 16000 Gold → 2 T1 cheese";
     recipe_outputs := [("T1 cheese", 2)];
     recipe_costs := [("hooks", 6); ("Gold", 16000)] |};
  {| recipe_label := "12 T1 cheese + 24 Thread + 1 ME → 2 T2 cheese";
     recipe_outputs := [("T2 cheese", 2)];
     recipe_costs := [("T1 cheese", 12); ("Thread", 24); ("ME", 1)] |};
  {| recipe_label := "48 T1 cheese + 60 Machinery + 1 ME → 2 T3 cheese";
     recipe_outputs := [("T3 cheese", 2)];
     recipe_costs := [("T1 cheese", 48); ("Machinery", 60); ("ME", 1)] |};
  {| recipe_label := "30 Machinery → 1 Mallet";
     recipe_outputs := [("mallets", 1)];
     recipe_costs := [("Machinery", 30)] |}
].

(** One pending next-chapter choice: [{"length": .., "genre": ..}]. *)
Record Choice := { choice_length : Z; choice_genre : string }.

(** ** HistoryManager *)

Module History.
Section History.
Context {S : Type}.

(** The two stacks are Python lists: [append] adds at the end and [pop]
    removes the last element. *)
Record HistoryManager := {
  _current : S;
  _undo : list S;
  _redo : list S;
}.

Definition init (initial_state : S) : HistoryManager :=
  {| _current := initial_state; _undo := []; _redo := [] |}.

Definition current (h : HistoryManager) : S := _current h.

Definition commit (h : HistoryManager) (new_state : S) : HistoryManager :=
  {| _current := new_state; _undo := _undo h ++ [_current h]; _redo := [] |}.

Definition can_undo (h : HistoryManager) : bool :=
  match _undo h with [] => false | _ => true end.

Definition can_redo (h : HistoryManager) : bool :=
  match _redo h with [] => false | _ => true end.

(** [undo] and [redo] return the state they hand back ([None] when the
    stack is empty) together with the manager after the call. *)
Definition undo (h : HistoryManager) : option S * HistoryManager :=
  match last (_undo h) with
  | None => (None, h)
  | Some top =>
      (Some top,
       {| _current := top;
          _undo := removelast (_undo h);
          _redo := _redo h ++ [_current h] |})
  end.

Definition redo (h : HistoryManager) : option S * HistoryManager :=
  match last (_redo h) with
  | None => (None, h)
  | Some top =>
      (Some top,
       {| _current := top;
          _undo := _undo h ++ [_current h];
          _redo := removelast (_redo h) |})
  end.
End History.
Arguments HistoryManager S : clear implicits.
End History.

(** ** GameState *)

Record GameState {R : Type} := {
  resources : gmap string R;
  consumables : gmap string R;
  notoriety : gmap string Z;
  enemy_drops : gmap string (gmap string R);
  genre_pages : gmap string Z;
  total_hunts : Z;
  current_run_hunts : Z;
  chapter_position : Z;
  current_chapter_length : option Z;
  current_chapter_genre : option string;
  current_chapter_progress : Z;
  postscript_length : Z;
  pending_chapter_choices : list Choice;
  run_fantasy_available : bool;
  postscript_extended : bool;
  run_mallets_spent : Z;
  total_mallets_spent : Z;
  total_diamonds_gain : R;
  pending_choices_locked : bool;
}.
Arguments GameState R : clear implicits.

(** Field assignment, [state.f = v], one setter per field. *)
Section Setters.
Context {R : Type}.
Implicit Type s : GameState R.

Definition set_resources (v : gmap string R) s : GameState R :=
  {| resources := v; consumables := consumables s; notoriety := notoriety s;
     enemy_drops := enemy_drops s; genre_pages := genre_pages s; total_hunts := total_hunts s;
     current_run_hunts := current_run_hunts s; chapter_position := chapter_position s;
     current_chapter_length := current_chapter_length s;
     current_chapter_genre := current_chapter_genre s;
     current_chapter_progress := current_chapter_progress s;
     postscript_length := postscript_length s;
     pending_chapter_choices := pending_chapter_choices s;
     run_fantasy_available := run_fantasy_available s;
     postscript_extended := postscript_extended s; run_mallets_spent := run_mallets_spent s;
     total_mallets_spent := total_mallets_spent s; total_diamonds_gain := total_diamonds_gain s;
     pending_choices_locked := pending_choices_locked s |}.
Definition set_consumables (v : gmap string R) s : GameState R :=
  {| resources := resources s; consumables := v; notoriety := notoriety s;
     enemy_drops := enemy_drops s; genre_pages := genre_pages s; total_hunts := total_hunts s;
     current_run_hunts := current_run_hunts s; chapter_position := chapter_position s;
     current_chapter_length := current_chapter_length s;
     current_chapter_genre := current_chapter_genre s;
     current_chapter_progress := current_chapter_progress s;
     postscript_length := postscript_length s;
     pending_chapter_choices := pending_chapter_choices s;
     run_fantasy_available := run_fantasy_available s;
     postscript_extended := postscript_extended s; run_mallets_spent := run_mallets_spent s;
     total_mallets_spent := total_mallets_spent s; total_diamonds_gain := total_diamonds_gain s;
     pending_choices_locked := pending_choices_locked s |}.
Definition set_notoriety (v : gmap string Z) s : GameState R :=
  {| resources := resources s; consumables := consumables s; notoriety := v;
     enemy_drops := enemy_drops s; genre_pages := genre_pages s; total_hunts := total_hunts s;
     current_run_hunts := current_run_hunts s; chapter_position := chapter_position s;
     current_chapter_length := current_chapter_length s;
     current_chapter_genre := current_chapter_genre s;
     current_chapter_progress := current_chapter_progress s;
     postscript_length := postscript_length s;
     pending_chapter_choices := pending_chapter_choices s;
     run_fantasy_available := run_fantasy_available s;
     postscript_extended := postscript_extended s; run_mallets_spent := run_mallets_spent s;
     total_mallets_spent := total_mallets_spent s; total_diamonds_gain := total_diamonds_gain s;
     pending_choices_locked := pending_choices_locked s |}.
Definition set_enemy_drops (v : gmap string (gmap string R)) s : GameState R :=
  {| resources := resources s; consumables := consumables s; notoriety := notoriety s;
     enemy_drops := v; genre_pages := genre_pages s; total_hunts := total_hunts s;
     current_run_hunts := current_run_hunts s; chapter_position := chapter_position s;
     current_chapter_length := current_chapter_length s;
     current_chapter_genre := current_chapter_genre s;
     current_chapter_progress := current_chapter_progress s;
     postscript_length := postscript_length s;
     pending_chapter_choices := pending_chapter_choices s;
     run_fantasy_available := run_fantasy_available s;
     postscript_extended := postscript_extended s; run_mallets_spent := run_mallets_spent s;
     total_mallets_spent := total_mallets_spent s; total_diamonds_gain := total_diamonds_gain s;
     pending_choices_locked := pending_choices_locked s |}.
Definition set_genre_pages (v : gmap string Z) s : GameState R :=
  {| resources := resources s; consumables := consumables s; notoriety := notoriety s;
     enemy_drops := enemy_drops s; genre_pages := v; total_hunts := total_hunts s;
     current_run_hunts := current_run_hunts s; chapter_position := chapter_position s;
     current_chapter_length := current_chapter_length s;
     current_chapter_genre := current_chapter_genre s;
     current_chapter_progress := current_chapter_progress s;
     postscript_length := postscript_length s;
     pending_chapter_choices := pending_chapter_choices s;
     run_fantasy_available := run_fantasy_available s;
     postscript_extended := postscript_extended s; run_mallets_spent := run_mallets_spent s;
     total_mallets_spent := total_mallets_spent s; total_diamonds_gain := total_diamonds_gain s;
     pending_choices_locked := pending_choices_locked s |}.
Definition set_total_hunts (v : Z) s : GameState R :=
  {| resources := resources s; consumables := consumables s; notoriety := notoriety s;
     enemy_drops := enemy_drops s; genre_pages := genre_pages s; total_hunts := v;
     current_run_hunts := current_run_hunts s; chapter_position := chapter_position s;
     current_chapter_length := current_chapter_length s;
     current_chapter_genre := current_chapter_genre s;
     current_chapter_progress := current_chapter_progress s;
     postscript_length := postscript_length s;
     pending_chapter_choices := pending_chapter_choices s;
     run_fantasy_available := run_fantasy_available s;
     postscript_extended := postscript_extended s; run_mallets_spent := run_mallets_spent s;
     total_mallets_spent := total_mallets_spent s; total_diamonds_gain := total_diamonds_gain s;
     pending_choices_locked := pending_choices_locked s |}.
Definition set_current_run_hunts (v : Z) s : GameState R :=
  {| resources := resources s; consumables := consumables s; notoriety := notoriety s;
     enemy_drops := enemy_drops s; genre_pages := genre_pages s; total_hunts := total_hunts s;
     current_run_hunts := v; chapter_position := chapter_position s;
     current_chapter_length := current_chapter_length s;
     current_chapter_genre := current_chapter_genre s;
     current_chapter_progress := current_chapter_progress s;
     postscript_length := postscript_length s;
     pending_chapter_choices := pending_chapter_choices s;
     run_fantasy_available := run_fantasy_available s;
     postscript_extended := postscript_extended s; run_mallets_spent := run_mallets_spent s;
     total_mallets_spent := total_mallets_spent s; total_diamonds_gain := total_diamonds_gain s;
     pending_choices_locked := pending_choices_locked s |}.
Definition set_chapter_position (v : Z) s : GameState R :=
  {| resources := resources s; consumables := consumables s; notoriety := notoriety s;
     enemy_drops := enemy_drops s; genre_pages := genre_pages s; total_hunts := total_hunts s;
     current_run_hunts := current_run_hunts s; chapter_position := v;
     current_chapter_length := current_chapter_length s;
     current_chapter_genre := current_chapter_genre s;
     current_chapter_progress := current_chapter_progress s;
     postscript_length := postscript_length s;
     pending_chapter_choices := pending_chapter_choices s;
     run_fantasy_available := run_fantasy_available s;
     postscript_extended := postscript_extended s; run_mallets_spent := run_mallets_spent s;
     total_mallets_spent := total_mallets_spent s; total_diamonds_gain := total_diamonds_gain s;
     pending_choices_locked := pending_choices_locked s |}.
Definition set_current_chapter_length (v : option Z) s : GameState R :=
  {| resources := resources s; consumables := consumables s; notoriety := notoriety s;
     enemy_drops := enemy_drops s; genre_pages := genre_pages s; total_hunts := total_hunts s;
     current_run_hunts := current_run_hunts s; chapter_position := chapter_position s;
     current_chapter_length := v; current_chapter_genre := current_chapter_genre s;
     current_chapter_progress := current_chapter_progress s;
     postscript_length := postscript_length s;
     pending_chapter_choices := pending_chapter_choices s;
     run_fantasy_available := run_fantasy_available s;
     postscript_extended := postscript_extended s; run_mallets_spent := run_mallets_spent s;
     total_mallets_spent := total_mallets_spent s; total_diamonds_gain := total_diamonds_gain s;
     pending_choices_locked := pending_choices_locked s |}.
Definition set_current_chapter_genre (v : option string) s : GameState R :=
  {| resources := resources s; consumables := consumables s; notoriety := notoriety s;
     enemy_drops := enemy_drops s; genre_pages := genre_pages s; total_hunts := total_hunts s;
     current_run_hunts := current_run_hunts s; chapter_position := chapter_position s;
     current_chapter_length := current_chapter_length s; current_chapter_genre := v;
     current_chapter_progress := current_chapter_progress s;
     postscript_length := postscript_length s;
     pending_chapter_choices := pending_chapter_choices s;
     run_fantasy_available := run_fantasy_available s;
     postscript_extended := postscript_extended s; run_mallets_spent := run_mallets_spent s;
     total_mallets_spent := total_mallets_spent s; total_diamonds_gain := total_diamonds_gain s;
     pending_choices_locked := pending_choices_locked s |}.
Definition set_current_chapter_progress (v : Z) s : GameState R :=
  {| resources := resources s; consumables := consumables s; notoriety := notoriety s;
     enemy_drops := enemy_drops s; genre_pages := genre_pages s; total_hunts := total_hunts s;
     current_run_hunts := current_run_hunts s; chapter_position := chapter_position s;
     current_chapter_length := current_chapter_length s;
     current_chapter_genre := current_chapter_genre s; current_chapter_progress := v;
     postscript_length := postscript_length s;
     pending_chapter_choices := pending_chapter_choices s;
     run_fantasy_available := run_fantasy_available s;
     postscript_extended := postscript_extended s; run_mallets_spent := run_mallets_spent s;
     total_mallets_spent := total_mallets_spent s; total_diamonds_gain := total_diamonds_gain s;
     pending_choices_locked := pending_choices_locked s |}.
Definition set_postscript_length (v : Z) s : GameState R :=
  {| resources := resources s; consumables := consumables s; notoriety := notoriety s;
     enemy_drops := enemy_drops s; genre_pages := genre_pages s; total_hunts := total_hunts s;
     current_run_hunts := current_run_hunts s; chapter_position := chapter_position s;
     current_chapter_length := current_chapter_length s;
     current_chapter_genre := current_chapter_genre s;
     current_chapter_progress := current_chapter_progress s; postscript_length := v;
     pending_chapter_choices := pending_chapter_choices s;
     run_fantasy_available := run_fantasy_available s;
     postscript_extended := postscript_extended s; run_mallets_spent := run_mallets_spent s;
     total_mallets_spent := total_mallets_spent s; total_diamonds_gain := total_diamonds_gain s;
     pending_choices_locked := pending_choices_locked s |}.
Definition set_pending_chapter_choices (v : list Choice) s : GameState R :=
  {| resources := resources s; consumables := consumables s; notoriety := notoriety s;
     enemy_drops := enemy_drops s; genre_pages := genre_pages s; total_hunts := total_hunts s;
     current_run_hunts := current_run_hunts s; chapter_position := chapter_position s;
     current_chapter_length := current_chapter_length s;
     current_chapter_genre := current_chapter_genre s;
     current_chapter_progress := current_chapter_progress s;
     postscript_length := postscript_length s; pending_chapter_choices := v;
     run_fantasy_available := run_fantasy_available s;
     postscript_extended := postscript_extended s; run_mallets_spent := run_mallets_spent s;
     total_mallets_spent := total_mallets_spent s; total_diamonds_gain := total_diamonds_gain s;
     pending_choices_locked := pending_choices_locked s |}.
Definition set_run_fantasy_available (v : bool) s : GameState R :=
  {| resources := resources s; consumables := consumables s; notoriety := notoriety s;
     enemy_drops := enemy_drops s; genre_pages := genre_pages s; total_hunts := total_hunts s;
     current_run_hunts := current_run_hunts s; chapter_position := chapter_position s;
     current_chapter_length := current_chapter_length s;
     current_chapter_genre := current_chapter_genre s;
     current_chapter_progress := current_chapter_progress s;
     postscript_length := postscript_length s;
     pending_chapter_choices := pending_chapter_choices s; run_fantasy_available := v;
     postscript_extended := postscript_extended s; run_mallets_spent := run_mallets_spent s;
     total_mallets_spent := total_mallets_spent s; total_diamonds_gain := total_diamonds_gain s;
     pending_choices_locked := pending_choices_locked s |}.
Definition set_postscript_extended (v : bool) s : GameState R :=
  {| resources := resources s; consumables := consumables s; notoriety := notoriety s;
     enemy_drops := enemy_drops s; genre_pages := genre_pages s; total_hunts := total_hunts s;
     current_run_hunts := current_run_hunts s; chapter_position := chapter_position s;
     current_chapter_length := current_chapter_length s;
     current_chapter_genre := current_chapter_genre s;
     current_chapter_progress := current_chapter_progress s;
     postscript_length := postscript_length s;
     pending_chapter_choices := pending_chapter_choices s;
     run_fantasy_available := run_fantasy_available s; postscript_extended := v;
     run_mallets_spent := run_mallets_spent s; total_mallets_spent := total_mallets_spent s;
     total_diamonds_gain := total_diamonds_gain s;
     pending_choices_locked := pending_choices_locked s |}.
Definition set_run_mallets_spent (v : Z) s : GameState R :=
  {| resources := resources s; consumables := consumables s; notoriety := notoriety s;
     enemy_drops := enemy_drops s; genre_pages := genre_pages s; total_hunts := total_hunts s;
     current_run_hunts := current_run_hunts s; chapter_position := chapter_position s;
     current_chapter_length := current_chapter_length s;
     current_chapter_genre := current_chapter_genre s;
     current_chapter_progress := current_chapter_progress s;
     postscript_length := postscript_length s;
     pending_chapter_choices := pending_chapter_choices s;
     run_fantasy_available := run_fantasy_available s;
     postscript_extended := postscript_extended s; run_mallets_spent := v;
     total_mallets_spent := total_mallets_spent s; total_diamonds_gain := total_diamonds_gain s;
     pending_choices_locked := pending_choices_locked s |}.
Definition set_total_mallets_spent (v : Z) s : GameState R :=
  {| resources := resources s; consumables := consumables s; notoriety := notoriety s;
     enemy_drops := enemy_drops s; genre_pages := genre_pages s; total_hunts := total_hunts s;
     current_run_hunts := current_run_hunts s; chapter_position := chapter_position s;
     current_chapter_length := current_chapter_length s;
     current_chapter_genre := current_chapter_genre s;
     current_chapter_progress := current_chapter_progress s;
     postscript_length := postscript_length s;
     pending_chapter_choices := pending_chapter_choices s;
     run_fantasy_available := run_fantasy_available s;
     postscript_extended := postscript_extended s; run_mallets_spent := run_mallets_spent s;
     total_mallets_spent := v; total_diamonds_gain := total_diamonds_gain s;
     pending_choices_locked := pending_choices_locked s |}.
Definition set_total_diamonds_gain (v : R) s : GameState R :=
  {| resources := resources s; consumables := consumables s; notoriety := notoriety s;
     enemy_drops := enemy_drops s; genre_pages := genre_pages s; total_hunts := total_hunts s;
     current_run_hunts := current_run_hunts s; chapter_position := chapter_position s;
     current_chapter_length := current_chapter_length s;
     current_chapter_genre := current_chapter_genre s;
     current_chapter_progress := current_chapter_progress s;
     postscript_length := postscript_length s;
     pending_chapter_choices := pending_chapter_choices s;
     run_fantasy_available := run_fantasy_available s;
     postscript_extended := postscript_extended s; run_mallets_spent := run_mallets_spent s;
     total_mallets_spent := total_mallets_spent s; total_diamonds_gain := v;
     pending_choices_locked := pending_choices_locked s |}.
Definition set_pending_choices_locked (v : bool) s : GameState R :=
  {| resources := resources s; consumables := consumables s; notoriety := notoriety s;
     enemy_drops := enemy_drops s; genre_pages := genre_pages s; total_hunts := total_hunts s;
     current_run_hunts := current_run_hunts s; chapter_position := chapter_position s;
     current_chapter_length := current_chapter_length s;
     current_chapter_genre := current_chapter_genre s;
     current_chapter_progress := current_chapter_progress s;
     postscript_length := postscript_length s;
     pending_chapter_choices := pending_chapter_choices s;
     run_fantasy_available := run_fantasy_available s;
     postscript_extended := postscript_extended s; run_mallets_spent := run_mallets_spent s;
     total_mallets_spent := total_mallets_spent s; total_diamonds_gain := total_diamonds_gain s;
     pending_choices_locked := v |}.
End Setters.

(** ** The persisted snapshot document

    [to_dict] builds it, [json] carries it, [from_dict] reads it back with
    [data.get(key, default)]: a field is [None] when the key is absent.  For
    the two nullable fields the inner [None] is JSON [null].  A field that
    is present holds a value of the type [to_dict] writes there, so the
    [int], [float] and [bool] conversions of [from_dict] keep it. *)
Record Doc {R : Type} := {
  doc_resources : option (gmap string R);
  doc_consumables : option (gmap string R);
  doc_notoriety : option (gmap string Z);
  doc_enemy_drops : option (gmap string (gmap string R));
  doc_genre_pages : option (gmap string Z);
  doc_total_hunts : option Z;
  doc_current_run_hunts : option Z;
  doc_chapter_position : option Z;
  doc_current_chapter_length : option (option Z);
  doc_current_chapter_genre : option (option string);
  doc_current_chapter_progress : option Z;
  doc_postscript_length : option Z;
  doc_pending_chapter_choices : option (list Choice);
  doc_run_fantasy_available : option bool;
  doc_postscript_extended : option bool;
  doc_run_mallets_spent : option Z;
  doc_total_mallets_spent : option Z;
  doc_pending_choices_locked : option bool;
  doc_total_diamonds_gain : option R;
}.
Arguments Doc R : clear implicits.

(** The draws of the [random] module during one handler call:
    [rng_choice k] is the raw index of the k-th [random.choice] (reduced
    modulo the length of the sequence), [rng_uniform] the value of
    [random.uniform], and [rng_shuffle k] the rearrangement performed by the
    k-th [random.shuffle]. *)
Record Rng := {
  rng_choice : nat -> nat;
  rng_uniform : Q;
  rng_shuffle : nat -> list string -> list string;
}.

(** [random.choice(seq)]; [None] is the [IndexError] on an empty sequence. *)
Definition random_choice {A} (i : nat) (seq : list A) : option A :=
  seq !! (i mod length seq)%nat.

(** [max(0, min(200, value))]. *)
Definition clamp_notoriety (value : Z) : Z := Z.max 0 (Z.min 200 value).

(** Truth value of a dictionary: empty dictionaries are false. *)
Definition dict_truthy {V} (d : gmap string V) : bool :=
  match map_to_list d with [] => false | _ => true end.

(** [old.update(new)]: the entries of [new] win. *)
Definition dict_update {V} (new old : gmap string V) : gmap string V := new ∪ old.

Section Game.
Context {R : Type} {pynum : PyNum R}.
Implicit Types (state s : GameState R) (data : Doc R).

Definition DEFAULT_ENEMY_DROPS : gmap string (gmap string R) :=
  list_to_map [
    ("T1 mouse",
      list_to_map [("Thread", num_lit (154 # 100)); ("Gold", num_of_Z 7500)]);
    ("T2 mouse",
      list_to_map [("Machinery", num_lit (243 # 100)); ("Gold", num_of_Z 16500)]);
    ("T3 mouse", list_to_map [("Gold", num_of_Z 25000)]);
    ("Common Weaver - With T1 Cheese",
      list_to_map [("Gold", num_of_Z 25000); ("mallets", num_lit (15 # 10));
                   ("Thread", num_lit (154 # 100))]);
    ("Common Weaver - With T2 Cheese",
      list_to_map [("Gold", num_of_Z 25000); ("mallets", num_lit (15 # 10));
                   ("Machinery", num_lit (243 # 100))]);
    ("Common Weaver - With T3 Cheese",
      list_to_map [("Gold", num_of_Z 25000); ("mallets", num_lit (15 # 10))]);
    ("Ultimate MythWeaver - With T1 Cheese",
      list_to_map [("Gold", num_of_Z 225000); ("Diamond", num_of_Z 1);
                   ("mallets", num_lit (23 # 10)); ("Thread", num_lit (154 # 100))]);
    ("Ultimate MythWeaver - With T2 Cheese",
      list_to_map [("Gold", num_of_Z 225000); ("Diamond", num_of_Z 1);
                   ("mallets", num_lit (23 # 10)); ("Machinery", num_lit (243 # 100))]);
    ("Ultimate MythWeaver - With T3 Cheese",
      list_to_map [("Gold", num_of_Z 225000); ("Diamond", num_of_Z 1);
                   ("mallets", num_lit (23 # 10))])
  ].

Definition _default_enemy_drops : gmap string (gmap string R) := DEFAULT_ENEMY_DROPS.

Definition _copy_enemy_drops (source : gmap string (gmap string R)) :
  gmap string (gmap string R) := source.

Definition _default_genre_pages : gmap string Z :=
  list_to_map ((λ genre, (genre, 0)) <$> (BASE_GENRES ++ [FANTASY_GENRE])).

(** Starts from the default pages and overwrites the entry of every known
    genre that [source] has; entries of [source] under other keys are
    dropped. *)
Definition _copy_genre_pages (source : gmap string Z) : gmap string Z :=
  map_imap (λ genre zero, Some (default zero (source !! genre))) _default_genre_pages.

Definition _copy_chapter_choices (choices : list Choice) : list Choice := choices.

(** [GameState()]: every field at its dataclass default. *)
Definition fresh_state : GameState R :=
  {| resources := list_to_map ((λ key, (key, num_of_Z 0)) <$> RESOURCE_KEYS);
     consumables := list_to_map ((λ key, (key, num_of_Z 0)) <$> CONSUMABLE_KEYS);
     notoriety := list_to_map ((λ genre, (genre, 0)) <$> BASE_GENRES);
     enemy_drops := _default_enemy_drops;
     genre_pages := _default_genre_pages;
     total_hunts := 0;
     current_run_hunts := 0;
     chapter_position := 0;
     current_chapter_length := None;
     current_chapter_genre := None;
     current_chapter_progress := 0;
     postscript_length := 10;
     pending_chapter_choices := [];
     run_fantasy_available := false;
     postscript_extended := false;
     run_mallets_spent := 0;
     total_mallets_spent := 0;
     total_diamonds_gain := num_of_Z 0;
     pending_choices_locked := false |}.

Definition clone s : GameState R :=
  {| resources := resources s;
     consumables := consumables s;
     notoriety := notoriety s;
     enemy_drops := _copy_enemy_drops (enemy_drops s);
     genre_pages := _copy_genre_pages (genre_pages s);
     total_hunts := total_hunts s;
     current_run_hunts := current_run_hunts s;
     chapter_position := chapter_position s;
     current_chapter_length := current_chapter_length s;
     current_chapter_genre := current_chapter_genre s;
     current_chapter_progress := current_chapter_progress s;
     postscript_length := postscript_length s;
     pending_chapter_choices := _copy_chapter_choices (pending_chapter_choices s);
     run_fantasy_available := run_fantasy_available s;
     postscript_extended := postscript_extended s;
     run_mallets_spent := run_mallets_spent s;
     total_mallets_spent := total_mallets_spent s;
     total_diamonds_gain := total_diamonds_gain s;
     pending_choices_locked := pending_choices_locked s |}.

Definition to_dict s : Doc R :=
  {| doc_resources := Some (resources s);
     doc_consumables := Some (consumables s);
     doc_notoriety := Some (notoriety s);
     doc_enemy_drops := Some (enemy_drops s);
     doc_genre_pages := Some (genre_pages s);
     doc_total_hunts := Some (total_hunts s);
     doc_current_run_hunts := Some (current_run_hunts s);
     doc_chapter_position := Some (chapter_position s);
     doc_current_chapter_length := Some (current_chapter_length s);
     doc_current_chapter_genre := Some (current_chapter_genre s);
     doc_current_chapter_progress := Some (current_chapter_progress s);
     doc_postscript_length := Some (postscript_length s);
     doc_pending_chapter_choices := Some (pending_chapter_choices s);
     doc_run_fantasy_available := Some (run_fantasy_available s);
     doc_postscript_extended := Some (postscript_extended s);
     doc_run_mallets_spent := Some (run_mallets_spent s);
     doc_total_mallets_spent := Some (total_mallets_spent s);
     doc_pending_choices_locked := Some (pending_choices_locked s);
     doc_total_diamonds_gain := Some (total_diamonds_gain s) |}.

(** [{key: float(raw.get(key, 0)) for key in keys}]. *)
Definition amounts_for (keys : list string) (raw : gmap string R) : gmap string R :=
  list_to_map ((λ key, (key, default (num_of_Z 0) (raw !! key))) <$> keys).

Definition from_dict data : GameState R :=
  let state := fresh_state in
  let state :=
    set_resources
      (dict_update (amounts_for RESOURCE_KEYS (default ∅ (doc_resources data)))
                   (resources state)) state in
  let state :=
    set_consumables
      (dict_update (amounts_for CONSUMABLE_KEYS (default ∅ (doc_consumables data)))
                   (consumables state)) state in
  let raw_notoriety := default ∅ (doc_notoriety data) in
  let state :=
    set_notoriety
      (foldl (λ notoriety genre,
                let value := default 0 (raw_notoriety !! genre) in
                <[genre := clamp_notoriety value]> notoriety)
             (notoriety state) BASE_GENRES) state in
  let raw_drops := default ∅ (doc_enemy_drops data) in
  let state := set_enemy_drops (dict_update raw_drops (enemy_drops state)) state in
  let state := set_enemy_drops (enemy_drops state ∪ DEFAULT_ENEMY_DROPS) state in
  let state := set_genre_pages (_copy_genre_pages (default ∅ (doc_genre_pages data))) state in
  let state := set_total_hunts (default 0 (doc_total_hunts data)) state in
  let state := set_current_run_hunts (default 0 (doc_current_run_hunts data)) state in
  let state := set_chapter_position (default 0 (doc_chapter_position data)) state in
  let stored_length := default None (doc_current_chapter_length data) in
  let state := set_current_chapter_length stored_length state in
  let state :=
    set_current_chapter_genre (default None (doc_current_chapter_genre data)) state in
  let state :=
    set_current_chapter_progress (default 0 (doc_current_chapter_progress data)) state in
  let state := set_postscript_length (default 10 (doc_postscript_length data)) state in
  let state :=
    set_pending_chapter_choices
      (_copy_chapter_choices (default [] (doc_pending_chapter_choices data))) state in
  let state :=
    set_run_fantasy_available (default false (doc_run_fantasy_available data)) state in
  let state :=
    set_postscript_extended (default false (doc_postscript_extended data)) state in
  let state := set_run_mallets_spent (default 0 (doc_run_mallets_spent data)) state in
  let state := set_total_mallets_spent (default 0 (doc_total_mallets_spent data)) state in
  let state :=
    set_pending_choices_locked (default false (doc_pending_choices_locked data)) state in
  let state :=
    set_total_diamonds_gain
      (default (num_of_Z 0) (doc_total_diamonds_gain data)) state in
  state.

(** [all(value > 80 for value in self.notoriety.values())]. *)
Definition fantasy_unlocked s : bool :=
  forallb (λ entry, bool_decide (80 < entry.2)) (map_to_list (notoriety s)).

(** *** Crafting *)

(** [None] is the [KeyError] for a key that is in neither dictionary. *)
Definition _apply_delta state (key : string) (delta : Z) : option (GameState R) :=
  match resources state !! key with
  | Some amount =>
      Some (set_resources (<[key := num_add amount (num_of_Z delta)]> (resources state)) state)
  | None =>
      match consumables state !! key with
      | Some amount =>
          Some (set_consumables
                  (<[key := num_add amount (num_of_Z delta)]> (consumables state)) state)
      | None => None
      end
  end.

(** [for key, amount in entries: self._apply_delta(state, key, sign * amount * quantity)]. *)
Fixpoint apply_deltas state (sign quantity : Z) (entries : list (string * Z)) :
  option (GameState R) :=
  match entries with
  | [] => Some state
  | (key, amount) :: rest =>
      match _apply_delta state key (sign * amount * quantity) with
      | Some state => apply_deltas state sign quantity rest
      | None => None
      end
  end.

(** *** Loot *)

Definition _apply_loot_amount state (material : string) (amount : R) : GameState R :=
  match resources state !! material with
  | Some held => set_resources (<[material := num_add held amount]> (resources state)) state
  | None =>
      match consumables state !! material with
      | Some held =>
          set_consumables (<[material := num_add held amount]> (consumables state)) state
      | None =>
          set_resources (<[material := num_add (num_of_Z 0) amount]> (resources state)) state
      end
  end.

(** [material not in {"Gold", "Diamond"}]. *)
Definition multiplier_applies (material : string) : bool :=
  negb (bool_decide (material = "Gold" ∨ material = "Diamond")).

(** One turn of the loop over [drops.items()]. *)
Definition loot_step (multiplier : R) (acc : GameState R * list (string * R))
    (drop : string * R) : GameState R * list (string * R) :=
  let '(state, results) := acc in
  let '(material, amount) := drop in
  let value := amount in
  let value := if multiplier_applies material then num_mul value multiplier else value in
  let state :=
    if bool_decide (material = "Diamond")
    then set_total_diamonds_gain (num_add (total_diamonds_gain state) value) state
    else state in
  let state := _apply_loot_amount state material value in
  (state, results ++ [(material, value)]).

Definition apply_drops (multiplier : R) (drops : list (string * R)) state :
  GameState R * list (string * R) :=
  foldl (loot_step multiplier) (state, []) drops.

(** [state.enemy_drops.get(enemy) or DEFAULT_ENEMY_DROPS.get(enemy)]. *)
Definition drops_of state (enemy : string) : option (gmap string R) :=
  match enemy_drops state !! enemy with
  | Some drops => if dict_truthy drops then Some drops else DEFAULT_ENEMY_DROPS !! enemy
  | None => DEFAULT_ENEMY_DROPS !! enemy
  end.

Definition _apply_enemy_loot state (enemy : string) (multiplier : R) :
  GameState R * list (string * R) :=
  match drops_of state enemy with
  | Some drops =>
      if dict_truthy drops then apply_drops multiplier (map_to_list drops) state
      else (state, [])
  | None => (state, [])
  end.

Definition _page_gain_for_hunt (cheese_rule : option CheeseRule) : Z :=
  match cheese_rule with
  | Some rule => rule_page_gain rule
  | None => 1
  end.

(** *** Notoriety *)

Definition _adjust_notoriety state (selected_genre : string) (increase : Z) : GameState R :=
  let current := default 0 (notoriety state !! selected_genre) in
  let raised := <[selected_genre := clamp_notoriety (current + increase)]> (notoriety state) in
  set_notoriety
    (map_imap (λ genre value,
       if bool_decide (genre = selected_genre) then Some value
       else if bool_decide (value > 1) then Some (value - 1)
       else Some value) raised)
    state.

(** The loop of [_select_genre_by_pages] over the positive weights. *)
Fixpoint pick_by_weight (pick : Q) (cumulative : Z) (weights : list (string * Z)) :
  option string :=
  match weights with
  | [] => None
  | (genre, weight) :: rest =>
      let cumulative := cumulative + weight in
      if Qle_bool pick (inject_Z cumulative) then Some genre
      else pick_by_weight pick cumulative rest
  end.

Definition page_weights state : list (string * Z) :=
  omap (λ genre,
          let pages := Z.max 0 (default 0 (genre_pages state !! genre)) in
          if bool_decide (pages > 0) then Some (genre, pages) else None)
       (BASE_GENRES ++ [FANTASY_GENRE]).

Definition _select_genre_by_pages (rng : Rng) state : option string :=
  let weights := page_weights state in
  match weights with
  | [] => random_choice (rng_choice rng 0%nat) (BASE_GENRES ++ [FANTASY_GENRE])
  | _ =>
      match pick_by_weight (rng_uniform rng) 0 weights with
      | Some genre => Some genre
      | None => fst <$> last weights
      end
  end.

(** Returns the state after the hunt and the line for the log; [None]
    when no genre was selected. *)
Definition _handle_postscript_hunt (rng : Rng) state (cheese_rule : CheeseRule)
    (multiplier : R) : GameState R * option (string * string * list (string * R)) :=
  match _select_genre_by_pages rng state with
  | None => (state, None)
  | Some selected_genre =>
      if bool_decide (selected_genre = FANTASY_GENRE) then
        let '(state, drops) :=
          _apply_enemy_loot state (rule_post_fantasy_enemy cheese_rule) multiplier in
        let state :=
          set_notoriety ((λ value, Z.max 0 (value - 20)) <$> notoriety state) state in
        (state, Some (selected_genre, rule_post_fantasy_enemy cheese_rule, drops))
      else
        let '(state, drops) :=
          _apply_enemy_loot state (rule_post_enemy cheese_rule) multiplier in
        let gain := rule_notoriety_gain cheese_rule in
        let state := _adjust_notoriety state selected_genre gain in
        (state, Some (selected_genre, rule_post_enemy cheese_rule, drops))
  end.

(** *** Runs, chapters and the postscript *)

Definition _genres_for_selection state (fantasy_available : option bool) : list string :=
  let fantasy_available := default (run_fantasy_available state) fantasy_available in
  let genres := BASE_GENRES in
  if fantasy_available then genres ++ [FANTASY_GENRE] else genres.

(** The loop over [CHAPTER_LENGTHS]: [shuffles] counts the calls of
    [random.shuffle] so far, [pop()] takes the last element, and [None] is
    the [IndexError] of popping an empty list. *)
Fixpoint choices_loop (rng : Rng) (genres : list string) (shuffles : nat)
    (available_genres : list string) (lengths : list Z) : option (list Choice) :=
  match lengths with
  | [] => Some []
  | length :: rest =>
      let '(shuffles, available_genres) :=
        match available_genres with
        | [] => (S shuffles, rng_shuffle rng shuffles genres)
        | _ => (shuffles, available_genres)
        end in
      match last available_genres with
      | None => None
      | Some genre =>
          cons {| choice_length := length; choice_genre := genre |}
            <$> choices_loop rng genres shuffles (removelast available_genres) rest
      end
  end.

Definition _generate_next_chapter_choices (rng : Rng) state : option (list Choice) :=
  let genres := _genres_for_selection state (Some (run_fantasy_available state)) in
  let available_genres := rng_shuffle rng 0%nat genres in
  choices_loop rng genres 1%nat available_genres CHAPTER_LENGTHS.

Definition _record_mallet_spend state (amount : Z) : GameState R :=
  let state := set_run_mallets_spent (run_mallets_spent state + amount) state in
  set_total_mallets_spent (total_mallets_spent state + amount) state.

Definition _initialize_new_run_state state (fantasy_available : bool) : GameState R :=
  let state := set_genre_pages _default_genre_pages state in
  let state := set_current_run_hunts 0 state in
  let state := set_chapter_position 0 state in
  let state := set_current_chapter_length None state in
  let state := set_current_chapter_genre None state in
  let state := set_current_chapter_progress 0 state in
  let state := set_postscript_length 10 state in
  let state := set_pending_chapter_choices [] state in
  let state := set_run_fantasy_available fantasy_available state in
  let state := set_postscript_extended false state in
  let state := set_run_mallets_spent 0 state in
  set_pending_choices_locked false state.

Definition _begin_chapter (rng : Rng) state (chapter_number length : Z) (genre : string) :
  option (GameState R) :=
  let state := set_chapter_position chapter_number state in
  let state := set_current_chapter_length (Some length) state in
  let state := set_current_chapter_genre (Some genre) state in
  let state := set_current_chapter_progress 0 state in
  if bool_decide (chapter_number <= TOTAL_CHAPTERS - 1) then
    choices ← _generate_next_chapter_choices rng state;
    let state := set_pending_chapter_choices choices state in
    Some (set_pending_choices_locked true state)
  else
    let state := set_pending_chapter_choices [] state in
    Some (set_pending_choices_locked false state).

Definition _enter_postscript state : GameState R :=
  let state := set_chapter_position 7 state in
  let state := set_current_chapter_length None state in
  let state := set_current_chapter_genre None state in
  let state := set_current_chapter_progress 0 state in
  let state := set_pending_chapter_choices [] state in
  let state := set_postscript_extended false state in
  set_pending_choices_locked false state.

Definition _finish_postscript state : GameState R :=
  let state := set_chapter_position 0 state in
  let state := set_current_chapter_length None state in
  let state := set_current_chapter_genre None state in
  let state := set_current_chapter_progress 0 state in
  let state := set_postscript_length 10 state in
  let state := set_pending_chapter_choices [] state in
  let state := set_run_fantasy_available false state in
  let state := set_current_run_hunts 0 state in
  let state := set_genre_pages _default_genre_pages state in
  set_run_mallets_spent 0 state.

Definition _handle_chapter_completion (rng : Rng) state : option (GameState R) :=
  if bool_decide (chapter_position state >= TOTAL_CHAPTERS) then
    Some (_enter_postscript state)
  else
    let state := set_current_chapter_length None state in
    let state := set_current_chapter_genre None state in
    let state := set_current_chapter_progress 0 state in
    let state := set_pending_choices_locked false state in
    match pending_chapter_choices state with
    | [] =>
        choices ← _generate_next_chapter_choices rng state;
        Some (set_pending_chapter_choices choices state)
    | _ => Some state
    end.

Definition _cc_multiplier : R := num_of_Z 2.

(** The truth value of [target_length]: [None] and [0] are false. *)
Definition target_truthy (target_length : option Z) : bool :=
  match target_length with
  | Some n => negb (bool_decide (n = 0))
  | None => false
  end.

(** The truth value of [current_chapter_genre]: [None] and the empty
    string are false. *)
Definition genre_truthy (genre : option string) : option string :=
  match genre with
  | Some g => if bool_decide (g = "") then None else Some g
  | None => None
  end.

(** [cc_enabled] is the state of the "CC ON" check box. *)
Definition _perform_hunt (cc_enabled : bool) (rng : Rng) (cheese_type : option string)
    state : Outcome (GameState R) :=
  if bool_decide (chapter_position state = 0) then Rejected "Not started"
  else if negb (bool_decide (pending_chapter_choices state = []))
           && negb (pending_choices_locked state)
           && bool_decide (chapter_position state <= TOTAL_CHAPTERS)
  then Rejected "Select chapter"
  else
  match cheese_type with
  | None => Rejected "Select cheese"
  | Some cheese_type =>
  if negb (bool_decide (1 <= chapter_position state <= TOTAL_CHAPTERS)
           || bool_decide (chapter_position state = 7))
  then Rejected "Cannot use cheese"
  else
  let target_length :=
    if bool_decide (chapter_position state = 7) then Some (postscript_length state)
    else current_chapter_length state in
  if negb (target_truthy target_length) then Rejected "Invalid chapter"
  else
  let cheese_rule := CHEESE_HUNT_RULES !! cheese_type in
  if match cheese_rule with
     | Some rule =>
         let available := default (num_of_Z 0) (resources state !! rule_resource rule) in
         num_leb available (num_of_Z 0)
     | None => false
     end
  then Rejected "Not enough cheese"
  else
  let new_state := clone state in
  let new_state :=
    match cheese_rule with
    | Some rule =>
        let held := default (num_of_Z 0) (resources new_state !! rule_resource rule) in
        set_resources
          (<[rule_resource rule := num_sub held (num_of_Z 1)]> (resources new_state))
          new_state
    | None => new_state
    end in
  let new_state :=
    set_current_chapter_progress (current_chapter_progress new_state + 1) new_state in
  let new_state := set_total_hunts (total_hunts new_state + 1) new_state in
  let new_state := set_current_run_hunts (current_run_hunts new_state + 1) new_state in
  let new_state :=
    match cheese_rule with
    | Some rule =>
        let loot_multiplier := if cc_enabled then _cc_multiplier else num_of_Z 1 in
        let new_state :=
          if cc_enabled then
            let held := default (num_of_Z 0) (consumables new_state !! "CC") in
            set_consumables
              (<["CC" := num_sub held (num_of_Z 1)]> (consumables new_state)) new_state
          else new_state in
        if bool_decide (chapter_position new_state = 7) then
          fst (_handle_postscript_hunt rng new_state rule loot_multiplier)
        else
          match genre_truthy (current_chapter_genre new_state) with
          | Some genre =>
              let gain := _page_gain_for_hunt (Some rule) in
              let current_pages := default 0 (genre_pages new_state !! genre) in
              let new_state :=
                set_genre_pages (<[genre := current_pages + gain]> (genre_pages new_state))
                                new_state in
              fst (_apply_enemy_loot new_state (rule_chapter_enemy rule) loot_multiplier)
          | None => new_state
          end
    | None => new_state
    end in
  let completed :=
    if bool_decide (current_chapter_progress new_state >= default 0 target_length) then
      if bool_decide (chapter_position new_state = 7)
      then Some (_finish_postscript new_state)
      else _handle_chapter_completion rng new_state
    else Some new_state in
  match completed with
  | Some new_state => Committed new_state
  | None => Raised "IndexError"
  end
  end.

(** A choice button hands over one [{"length", "genre"}] dictionary; it is
    false when its length is [0]. *)
Definition _choose_next_chapter (rng : Rng) (choice : Choice) state : Outcome (GameState R) :=
  if bool_decide (choice_length choice = 0) then Rejected ""
  else
  let new_state := clone state in
  match pending_chapter_choices new_state with
  | [] => Rejected ""
  | _ =>
  if pending_choices_locked new_state then Rejected "Chapter in progress"
  else
  let next_chapter_number := Z.min (chapter_position new_state + 1) TOTAL_CHAPTERS in
  let next_chapter_number :=
    if bool_decide (next_chapter_number <= chapter_position new_state)
    then chapter_position new_state + 1 else next_chapter_number in
  match _begin_chapter rng new_state next_chapter_number
          (choice_length choice) (choice_genre choice) with
  | Some new_state => Committed new_state
  | None => Raised "IndexError"
  end
  end.

Definition mallets_below state (cost : Z) : bool :=
  num_ltb (default (num_of_Z 0) (resources state !! "mallets")) (num_of_Z cost).

(** [state.resources["mallets"] -= cost]; [None] is the [KeyError] when the
    entry is missing. *)
Definition pay_mallets state (cost : Z) : option (GameState R) :=
  held ← resources state !! "mallets";
  Some (set_resources (<["mallets" := num_sub held (num_of_Z cost)]> (resources state)) state).

Definition _extend_postscript state : Outcome (GameState R) :=
  if negb (bool_decide (chapter_position state = 7)) then Rejected "Not in Postscript"
  else if mallets_below state 30 then Rejected "Not enough Mallets"
  else
  let new_state := clone state in
  if mallets_below new_state 30 then Rejected "Not enough Mallets"
  else
  match pay_mallets new_state 30 with
  | None => Raised "KeyError"
  | Some new_state =>
      let new_state := set_postscript_length (postscript_length new_state + 3) new_state in
      let new_state := set_postscript_extended true new_state in
      Committed (_record_mallet_spend new_state 30)
  end.

(** [state.resources.get("mallets", 0) >= cost], the comparison the button
    states are computed with; [a >= b] is read as [b <= a]. *)
Definition mallets_at_least state (cost : Z) : bool :=
  num_leb (num_of_Z cost) (default (num_of_Z 0) (resources state !! "mallets")).

(** [extend_state] of [_refresh_hunt_section]: whether the "Postscript +3"
    button is enabled for the state on display. *)
Definition extend_state state : bool :=
  bool_decide (chapter_position state = 7)
  && mallets_at_least state 30
  && negb (postscript_extended state).

(** Pressing the "Postscript +3" button: a disabled button does not call
    its command. *)
Definition press_extend_postscript state : Outcome (GameState R) :=
  if extend_state state then _extend_postscript state else Rejected "".

Definition _reroll_chapter_choices (rng : Rng) state : Outcome (GameState R) :=
  match pending_chapter_choices state with
  | [] => Rejected "Nothing to reroll"
  | _ =>
  if mallets_below state 3 then Rejected "Not enough Mallets"
  else
  let new_state := clone state in
  if mallets_below new_state 3 then Rejected "Not enough Mallets"
  else
  match pay_mallets new_state 3 with
  | None => Raised "KeyError"
  | Some new_state =>
      match _generate_next_chapter_choices rng new_state with
      | None => Raised "IndexError"
      | Some choices =>
          let new_state := set_pending_chapter_choices choices new_state in
          Committed (_record_mallet_spend new_state 3)
      end
  end
  end.

Definition _ensure_can_start_run state : bool :=
  bool_decide (chapter_position state = 0).

Definition _start_random_run (rng : Rng) state : Outcome (GameState R) :=
  if negb (_ensure_can_start_run state) then Rejected "Run in progress"
  else
  let fantasy_available := fantasy_unlocked state in
  let available_genres := _genres_for_selection state (Some fantasy_available) in
  match available_genres with
  | [] => Rejected "Cannot start"
  | _ =>
  match random_choice (rng_choice rng 0%nat) CHAPTER_LENGTHS,
        random_choice (rng_choice rng 1%nat) available_genres with
  | Some length, Some genre =>
      let new_state := clone state in
      let new_state := _initialize_new_run_state new_state fantasy_available in
      match _begin_chapter rng new_state 1 length genre with
      | Some new_state => Committed new_state
      | None => Raised "IndexError"
      end
  | _, _ => Raised "IndexError"
  end
  end.

Definition _confirm_manual_start (rng : Rng) (length : Z) (genre : string) state :
  Outcome (GameState R) :=
  let new_state := clone state in
  if mallets_below new_state 30 then Rejected "Not enough Mallets"
  else
  match pay_mallets new_state 30 with
  | None => Raised "KeyError"
  | Some new_state =>
  let fantasy_available := fantasy_unlocked new_state in
  if bool_decide (genre = FANTASY_GENRE) && negb fantasy_available
  then Rejected "Fantasy locked"
  else
  let new_state := _initialize_new_run_state new_state fantasy_available in
  let new_state := _record_mallet_spend new_state 30 in
  match _begin_chapter rng new_state 1 length genre with
  | Some new_state => Committed new_state
  | None => Raised "IndexError"
  end
  end.

(** [_start_manual_run] followed by the dialog's confirmation with the
    length and genre picked there. *)
Definition _start_manual_run (rng : Rng) (length : Z) (genre : string) state :
  Outcome (GameState R) :=
  if negb (_ensure_can_start_run state) then Rejected "Run in progress"
  else if mallets_below state 30 then Rejected "Not enough Mallets"
  else
  match _genres_for_selection state (Some (fantasy_unlocked state)) with
  | [] => Rejected "Cannot start"
  | _ => _confirm_manual_start rng length genre state
  end.

Definition _load_snapshot (raw : Doc R) state : Outcome (GameState R) :=
  Committed (from_dict raw).

(** *** Entry fields *)

Context {pytext : PyText R}.

Definition _parse_int (raw : string) : option Z :=
  let raw := str_strip raw in
  let raw := if bool_decide (raw = "") then "0" else raw in
  int_of_str raw.

Definition _parse_float (raw : string) : option R :=
  let raw := str_strip raw in
  let raw := if bool_decide (raw = "") then "0" else raw in
  float_of_str raw.

(** [_entry_changed("notoriety", key, True)], the binding of the five
    notoriety entries; [raw] is the text of the entry.  [_get_var] raises
    [KeyError] for a key without an entry. *)
Definition _entry_changed_notoriety (key raw : string) state : Outcome (GameState R) :=
  if negb (bool_decide (key ∈ BASE_GENRES)) then Raised "KeyError"
  else
  match _parse_int raw with
  | None => Rejected "Invalid number"
  | Some value =>
      let value := clamp_notoriety value in
      if bool_decide (notoriety state !! key = Some value) then Rejected ""
      else
      let new_state := clone state in
      Committed (set_notoriety (<[key := value]> (notoriety new_state)) new_state)
  end.

Inductive AmountCategory := CatResources | CatConsumables.

(** [_entry_changed(category, key, False, allow_float=True)], the binding
    of the resource and consumable entries. *)
Definition _entry_changed_amount (category : AmountCategory) (key raw : string) state :
  Outcome (GameState R) :=
  let keys := match category with
              | CatResources => RESOURCE_KEYS
              | CatConsumables => CONSUMABLE_KEYS
              end in
  if negb (bool_decide (key ∈ keys)) then Raised "KeyError"
  else
  match _parse_float raw with
  | None => Rejected "Invalid number"
  | Some value =>
      let current_dict := match category with
                          | CatResources => resources state
                          | CatConsumables => consumables state
                          end in
      if match current_dict !! key with
         | Some held => num_eqb held value
         | None => false
         end
      then Rejected ""
      else
      let new_state := clone state in
      Committed
        match category with
        | CatResources => set_resources (<[key := value]> (resources new_state)) new_state
        | CatConsumables =>
            set_consumables (<[key := value]> (consumables new_state)) new_state
        end
  end.

(** ** The application: history plus the widgets the handlers read *)

Record App := {
  history : History.HistoryManager (GameState R);
  quantity_var : string;
  cc_enabled : bool;
}.

(** [self.state] always is the object [self.history.current]. *)
Definition app_state (app : App) : GameState R := History.current (history app).

Definition new_app : App :=
  {| history := History.init fresh_state; quantity_var := "1"; cc_enabled := true |}.

Definition set_history (h : History.HistoryManager (GameState R)) (app : App) : App :=
  {| history := h; quantity_var := quantity_var app; cc_enabled := cc_enabled app |}.

Definition set_quantity_var (text : string) (app : App) : App :=
  {| history := history app; quantity_var := text; cc_enabled := cc_enabled app |}.

Definition set_cc_enabled (on : bool) (app : App) : App :=
  {| history := history app; quantity_var := quantity_var app; cc_enabled := on |}.

Definition _commit_state (app : App) (new_state : GameState R) : App :=
  set_history (History.commit (history app) new_state) app.

(** A handler that returns early or raises leaves the application as it
    was. *)
Definition settle (app : App) (outcome : Outcome (GameState R)) : App :=
  match outcome with
  | Committed new_state => _commit_state app new_state
  | Rejected _ | Raised _ => app
  end.

Definition _undo (app : App) : App := set_history (History.undo (history app)).2 app.

Definition _redo (app : App) : App := set_history (History.redo (history app)).2 app.

Definition _sanitize_quantity (app : App) : App :=
  let quantity := _parse_int (quantity_var app) in
  let quantity :=
    match quantity with
    | Some q => if bool_decide (q <= 0) then 1 else q
    | None => 1
    end in
  set_quantity_var (pretty quantity) app.

(** What [_craft] builds on the clone: [Some] the state to commit, [None]
    when [_apply_delta] raises. *)
Definition crafted state (recipe : Recipe) (quantity : Z) : option (GameState R) :=
  let new_state := clone state in
  new_state ← apply_deltas new_state (-1) quantity (recipe_costs recipe);
  apply_deltas new_state 1 quantity (recipe_outputs recipe).

Definition _craft (recipe : Recipe) (app : App) : App :=
  match _parse_int (quantity_var app) with
  | Some quantity =>
      if bool_decide (quantity <= 0) then set_quantity_var "1" app
      else
      match crafted (app_state app) recipe quantity with
      | Some new_state => _commit_state app new_state
      | None => app
      end
  | None => set_quantity_var "1" app
  end.

Definition _batch_hunt (rngs : nat -> Rng) (cheese_type : string) (app : App) : App :=
  match CHEESE_HUNT_RULES !! cheese_type with
  | None => app
  | Some cheese_rule =>
      let state := app_state app in
      let available := default (num_of_Z 0) (resources state !! rule_resource cheese_rule) in
      if num_ltb available (num_of_Z 10) then app
      else
      let target_length :=
        if bool_decide (chapter_position state = 7) then Some (postscript_length state)
        else current_chapter_length state in
      let remaining := default 0 target_length - current_chapter_progress state in
      if bool_decide (remaining < 10) then app
      else
      foldl (λ app i,
               settle app (_perform_hunt (cc_enabled app) (rngs i) (Some cheese_type)
                                         (app_state app)))
            app (seq 0 10)
  end.

(** The user's actions on the window. *)
Inductive Action :=
| StartRandomRun (rng : Rng)
| StartManualRun (rng : Rng) (length : Z) (genre : string)
| Hunt (rng : Rng) (cheese_type : option string)
| BatchHunt (rngs : nat -> Rng) (cheese_type : string)
| ChooseNextChapter (rng : Rng) (choice : Choice)
| RerollChoices (rng : Rng)
| ExtendPostscript
| Craft (recipe : Recipe)
| TypeQuantity (text : string)
| LeaveQuantity
| ToggleCC (on : bool)
| EditNotoriety (key raw : string)
| EditAmount (category : AmountCategory) (key raw : string)
| LoadSnapshot (raw : Doc R)
| Undo
| Redo.

Definition perform (app : App) (action : Action) : App :=
  match action with
  | StartRandomRun rng => settle app (_start_random_run rng (app_state app))
  | StartManualRun rng length genre =>
      settle app (_start_manual_run rng length genre (app_state app))
  | Hunt rng cheese_type =>
      settle app (_perform_hunt (cc_enabled app) rng cheese_type (app_state app))
  | BatchHunt rngs cheese_type => _batch_hunt rngs cheese_type app
  | ChooseNextChapter rng choice => settle app (_choose_next_chapter rng choice (app_state app))
  | RerollChoices rng => settle app (_reroll_chapter_choices rng (app_state app))
  | ExtendPostscript => settle app (press_extend_postscript (app_state app))
  | Craft recipe => _craft recipe app
  | TypeQuantity text => set_quantity_var text app
  | LeaveQuantity => _sanitize_quantity app
  | ToggleCC on => set_cc_enabled on app
  | EditNotoriety key raw => settle app (_entry_changed_notoriety key raw (app_state app))
  | EditAmount category key raw =>
      settle app (_entry_changed_amount category key raw (app_state app))
  | LoadSnapshot raw => settle app (_load_snapshot raw (app_state app))
  | Undo => _undo app
  | Redo => _redo app
  end.

Definition perform_all (app : App) (actions : list Action) : App :=
  foldl perform app actions.
End Game.

Arguments App R : clear implicits.
Arguments Action R : clear implicits.

(** ** An exact instance of the primitives

    Rational arithmetic on reduced fractions, and a reader of plain decimal
    integers; used to run the program on concrete inputs. *)
Module Exact.
#[export] Instance Q_PyNum : PyNum Q := {|
  num_lit q := Qred q;
  num_add a b := Qred (a + b);
  num_sub a b := Qred (a - b);
  num_mul a b := Qred (a * b);
  num_leb a b := Qle_bool a b;
  num_ltb a b := negb (Qle_bool b a);
  num_eqb a b := Qeq_bool a b;
|}.

Definition digit_of (c : ascii) : option Z :=
  let n := Z.of_nat (nat_of_ascii c) in
  if bool_decide (48 <= n <= 57) then Some (n - 48) else None.

Fixpoint digits_value (acc : Z) (s : string) : option Z :=
  match s with
  | EmptyString => Some acc
  | String c rest =>
      match digit_of c with
      | Some d => digits_value (10 * acc + d) rest
      | None => None
      end
  end.

Definition read_int (s : string) : option Z :=
  match s with
  | EmptyString => None
  | String "-" EmptyString => None
  | String "-" rest => Z.opp <$> digits_value 0 rest
  | _ => digits_value 0 s
  end.

Fixpoint drop_spaces (s : string) : string :=
  match s with
  | String " " rest => drop_spaces rest
  | _ => s
  end.

Definition strip (s : string) : string :=
  String.rev (drop_spaces (String.rev (drop_spaces s))).

#[export] Instance Q_PyText : PyText Q := {|
  str_strip := strip;
  int_of_str := read_int;
  float_of_str s := inject_Z <$> read_int s;
|}.

(** A source of draws that always answers with the first index, the value
    [0] and the unchanged list. *)
Definition first_rng : Rng :=
  {| rng_choice := λ _, 0%nat; rng_uniform := 0%Q; rng_shuffle := λ _ genres, genres |}.
End Exact.

(** ** Vocabulary of the statements *)

Section Vocabulary.
Context {R : Type} {pynum : PyNum R}.
Implicit Types (state s : GameState R).

(** The bucket of a material: the entry [_apply_delta] and
    [_apply_loot_amount] write to, read as [0] before it exists. *)
Definition held s (material : string) : R :=
  match resources s !! material with
  | Some amount => amount
  | None => default (num_of_Z 0) (consumables s !! material)
  end.

(** What one drop adds to its bucket under a loot multiplier. *)
Definition drop_value (multiplier : R) (material : string) (amount : R) : R :=
  if bool_decide (material = "Gold" ∨ material = "Diamond") then amount
  else num_mul amount multiplier.

(** Whether a key has an entry in one of the two dictionaries of amounts
    ([_apply_delta] raises [KeyError] otherwise). *)
Definition has_bucket s (key : string) : bool :=
  match resources s !! key, consumables s !! key with
  | None, None => false
  | _, _ => true
  end.

(** Every built-in resource and consumable key has its entry. *)
Definition material_keys_present s : bool :=
  forallb (has_bucket s) (RESOURCE_KEYS ++ CONSUMABLE_KEYS).

(** The page dictionary has the shape [clone] gives it: exactly the six
    genres. *)
Definition pages_normal s : Prop := _copy_genre_pages (genre_pages s) = genre_pages s.

(** A recipe names each material once. *)
Definition recipe_distinct (recipe : Recipe) : Prop :=
  NoDup (recipe_costs recipe ++ recipe_outputs recipe).*1.

(** Everything in a state apart from the two dictionaries of amounts and
    the lifetime gem gain. *)
Definition beyond_amounts s :=
  (notoriety s, enemy_drops s, genre_pages s, total_hunts s, current_run_hunts s,
   chapter_position s, current_chapter_length s, current_chapter_genre s,
   current_chapter_progress s, postscript_length s, pending_chapter_choices s,
   run_fantasy_available s, postscript_extended s, run_mallets_spent s,
   total_mallets_spent s, pending_choices_locked s).

(** The notoriety dictionary has an entry for each base genre and for
    nothing else, and every entry lies in the range 0 to 200. *)
Definition notoriety_ok s : Prop :=
  ∀ genre,
    match notoriety s !! genre with
    | Some value => genre ∈ BASE_GENRES ∧ 0 <= value <= 200
    | None => genre ∉ BASE_GENRES
    end.

(** A property of the state a handler commits, if it commits. *)
Definition on_commit (P : GameState R → Prop) (outcome : Outcome (GameState R)) : Prop :=
  match outcome with
  | Committed s' => P s'
  | Rejected _ | Raised _ => True
  end.

(** [target_length] of [_perform_hunt]. *)
Definition hunt_target s : option Z :=
  if bool_decide (chapter_position s = 7) then Some (postscript_length s)
  else current_chapter_length s.

(** A hunt completes the current chapter (or the postscript) when the
    progress it reaches meets the target length. *)
Definition hunt_completes s : Prop :=
  current_chapter_progress s + 1 >= default 0 (hunt_target s).

(** The fields that neither loot nor notoriety nor page gains touch. *)
Definition run_fields s :=
  (enemy_drops s, chapter_position s, current_chapter_length s, current_chapter_genre s,
   postscript_length s, pending_chapter_choices s, run_fantasy_available s,
   postscript_extended s, run_mallets_spent s, total_mallets_spent s,
   pending_choices_locked s).

(** The part of [_perform_hunt] between its checks and its completion
    test: the clone after paying the cheese, counting the hunt and taking
    the loot. *)
Definition hunt_body (cc_enabled : bool) (rng : Rng) (cheese_rule : option CheeseRule) s :
  GameState R :=
  let new_state := clone s in
  let new_state :=
    match cheese_rule with
    | Some rule =>
        let held := default (num_of_Z 0) (resources new_state !! rule_resource rule) in
        set_resources
          (<[rule_resource rule := num_sub held (num_of_Z 1)]> (resources new_state))
          new_state
    | None => new_state
    end in
  let new_state :=
    set_current_chapter_progress (current_chapter_progress new_state + 1) new_state in
  let new_state := set_total_hunts (total_hunts new_state + 1) new_state in
  let new_state := set_current_run_hunts (current_run_hunts new_state + 1) new_state in
  match cheese_rule with
  | Some rule =>
      let loot_multiplier := if cc_enabled then _cc_multiplier else num_of_Z 1 in
      let new_state :=
        if cc_enabled then
          let held := default (num_of_Z 0) (consumables new_state !! "CC") in
          set_consumables
            (<["CC" := num_sub held (num_of_Z 1)]> (consumables new_state)) new_state
        else new_state in
      if bool_decide (chapter_position new_state = 7) then
        fst (_handle_postscript_hunt rng new_state rule loot_multiplier)
      else
        match genre_truthy (current_chapter_genre new_state) with
        | Some genre =>
            let gain := _page_gain_for_hunt (Some rule) in
            let current_pages := default 0 (genre_pages new_state !! genre) in
            let new_state :=
              set_genre_pages (<[genre := current_pages + gain]> (genre_pages new_state))
                              new_state in
            fst (_apply_enemy_loot new_state (rule_chapter_enemy rule) loot_multiplier)
        | None => new_state
        end
  | None => new_state
  end.

(** The completion test that ends [_perform_hunt], on the state [mid]
    the hunt has built from [s]. *)
Definition hunt_finish (rng : Rng) s (mid : GameState R) : option (GameState R) :=
  if bool_decide (current_chapter_progress mid >= default 0 (hunt_target s)) then
    if bool_decide (chapter_position mid = 7)
    then Some (_finish_postscript mid)
    else _handle_chapter_completion rng mid
  else Some mid.

(** The fields a handler outside the hunt never writes. *)
Definition same_standing s s' : Prop :=
  notoriety s' = notoriety s
  ∧ run_fantasy_available s' = run_fantasy_available s
  ∧ pending_choices_locked s' = pending_choices_locked s.

(** The availability flag of [s'] is the one of [s], unless [s'] is
    idle. *)
Definition flag_kept s s' : Prop :=
  run_fantasy_available s' = run_fantasy_available s ∨ chapter_position s' = 0.

(** The dictionaries of a state carry the built-in keys: the seven
    resources, the four consumables, the five base genres, the six page
    genres, and at least the built-in enemies. *)
Definition builtin_keys s : Prop :=
  dom (resources s) = list_to_set RESOURCE_KEYS
  ∧ dom (consumables s) = list_to_set CONSUMABLE_KEYS
  ∧ dom (notoriety s) = list_to_set BASE_GENRES
  ∧ pages_normal s
  ∧ dom (DEFAULT_ENEMY_DROPS (R:=R)) ⊆ dom (enemy_drops s).

(** Every state a history holds satisfies [P]. *)
Definition history_all (P : GameState R → Prop)
    (h : History.HistoryManager (GameState R)) : Prop :=
  P (History._current h) ∧ Forall P (History._undo h) ∧ Forall P (History._redo h).
End Vocabulary.

(** The actions that work on the run in progress: all but loading a
    snapshot, undo and redo, which swap the whole state for another one. *)
Definition within_run {R : Type} (action : Action R) : bool :=
  match action with
  | LoadSnapshot _ | Undo | Redo => false
  | _ => true
  end.

(** ** Concrete runs on the exact instance *)

Section Runs.
Import Exact.

(** A run just started: five T1 cheese typed into the entry, then "Start
    run (random)". *)
Definition chapter_one_app : App Q :=
  perform_all new_app
    [EditAmount CatResources "T1 cheese" "5"; StartRandomRun first_rng].

(** A document that only says where the run stands. *)
Definition bare_doc (position : Z) : Doc Q :=
  {| doc_resources := None;
     doc_consumables := None;
     doc_notoriety := None;
     doc_enemy_drops := None;
     doc_genre_pages := None;
     doc_total_hunts := None;
     doc_current_run_hunts := None;
     doc_chapter_position := Some position;
     doc_current_chapter_length := None;
     doc_current_chapter_genre := None;
     doc_current_chapter_progress := None;
     doc_postscript_length := None;
     doc_pending_chapter_choices := None;
     doc_run_fantasy_available := None;
     doc_postscript_extended := None;
     doc_run_mallets_spent := None;
     doc_total_mallets_spent := None;
     doc_pending_choices_locked := None;
     doc_total_diamonds_gain := None |}.

(** A snapshot taken in the postscript: one T1 cheese, 25 Romance pages,
    Adventure at notoriety 1, Tragedy at 5. *)
Definition postscript_doc : Doc Q :=
  {| doc_resources := Some {["T1 cheese" := 1%Q]};
     doc_consumables := None;
     doc_notoriety := Some (<["Adventure" := 1]> {["Tragedy" := 5]});
     doc_enemy_drops := None;
     doc_genre_pages := Some {["Romance" := 25]};
     doc_total_hunts := Some 100;
     doc_current_run_hunts := Some 100;
     doc_chapter_position := Some 7;
     doc_current_chapter_length := Some None;
     doc_current_chapter_genre := Some None;
     doc_current_chapter_progress := Some 0;
     doc_postscript_length := Some 10;
     doc_pending_chapter_choices := Some [];
     doc_run_fantasy_available := Some false;
     doc_postscript_extended := Some false;
     doc_run_mallets_spent := Some 0;
     doc_total_mallets_spent := Some 0;
     doc_pending_choices_locked := Some false;
     doc_total_diamonds_gain := None |}.

Definition postscript_app : App Q := perform new_app (LoadSnapshot postscript_doc).

(** A postscript with sixty mallets in hand. *)
Definition rich_postscript_app : App Q :=
  perform_all new_app
    [LoadSnapshot (bare_doc 7); EditAmount CatResources "mallets" "60"].

(** A snapshot whose loot table gives the T1 mouse a material that is
    neither a resource nor a consumable, loaded before a run is started
    and one T1 hunt is made. *)
Definition custom_drop_doc : Doc Q :=
  {| doc_resources := Some {["T1 cheese" := 1%Q]};
     doc_consumables := None;
     doc_notoriety := None;
     doc_enemy_drops := Some {["T1 mouse" := {["Ruby" := 1%Q]}]};
     doc_genre_pages := None;
     doc_total_hunts := None;
     doc_current_run_hunts := None;
     doc_chapter_position := None;
     doc_current_chapter_length := None;
     doc_current_chapter_genre := None;
     doc_current_chapter_progress := None;
     doc_postscript_length := None;
     doc_pending_chapter_choices := None;
     doc_run_fantasy_available := None;
     doc_postscript_extended := None;
     doc_run_mallets_spent := None;
     doc_total_mallets_spent := None;
     doc_pending_choices_locked := None;
     doc_total_diamonds_gain := None |}.

Definition ruby_app : App Q :=
  perform_all new_app
    [LoadSnapshot custom_drop_doc; StartRandomRun first_rng;
     Hunt first_rng (Some "T1")].

(** A fresh application whose Romance notoriety was typed as 150 and whose
    quantity field reads 3. *)
Definition edited_app : App Q :=
  perform_all new_app [EditNotoriety "Romance" "150"; TypeQuantity "3"].

(** The last recipe of the list. *)
Definition mallet_recipe : Recipe :=
  {| recipe_label := "30 Machinery → 1 Mallet";
     recipe_outputs := [("mallets", 1)];
     recipe_costs := [("Machinery", 30)] |}.

(** A state that was never produced by the handlers: Romance notoriety
    250. *)
Definition overshoot_state : GameState Q :=
  set_notoriety (<["Romance" := 250]> (notoriety fresh_state)) fresh_state.
End Runs.

(** ** Tactics *)

(** Reads fields through field assignments. *)
Ltac state_simpl :=
  cbn [
       resources consumables notoriety enemy_drops genre_pages total_hunts
       current_run_hunts chapter_position current_chapter_length
       current_chapter_genre current_chapter_progress postscript_length
       pending_chapter_choices run_fantasy_available postscript_extended
       run_mallets_spent total_mallets_spent total_diamonds_gain
       pending_choices_locked set_resources set_consumables set_notoriety
       set_enemy_drops set_genre_pages set_total_hunts set_current_run_hunts
       set_chapter_position set_current_chapter_length set_current_chapter_genre
       set_current_chapter_progress set_postscript_length
       set_pending_chapter_choices set_run_fantasy_available set_postscript_extended
       set_run_mallets_spent set_total_mallets_spent set_total_diamonds_gain
       set_pending_choices_locked
  ] in *.

(** Case analysis on a lookup in a chain of insertions. *)
Ltac insert_cases genre tac :=
  repeat match goal with
    | |- context [(<[?key := _]> _) !! genre] =>
        destruct (decide (genre = key)) as [->|?];
        [rewrite lookup_insert_eq; tac
        |rewrite lookup_insert_ne by congruence]
    end.

(** * Properties *)

(** ** The history manager *)

Section HistoryFacts.
Context {S : Type}.
Implicit Types (h : History.HistoryManager S) (s n m : S).

Lemma undo_after_push (current_state top : S) (undo_stack redo_stack : list S) :
  History.undo {| History._current := current_state;
                  History._undo := undo_stack ++ [top];
                  History._redo := redo_stack |}
  = (Some top, {| History._current := top;
                  History._undo := undo_stack;
                  History._redo := redo_stack ++ [current_state] |}).
Proof.
  unfold History.undo; simpl.
  rewrite last_snoc, removelast_last. reflexivity.
Qed.

Lemma redo_after_push (current_state top : S) (undo_stack redo_stack : list S) :
  History.redo {| History._current := current_state;
                  History._undo := undo_stack;
                  History._redo := redo_stack ++ [top] |}
  = (Some top, {| History._current := top;
                  History._undo := undo_stack ++ [current_state];
                  History._redo := redo_stack |}).
Proof.
  unfold History.redo; simpl.
  rewrite last_snoc, removelast_last. reflexivity.
Qed.

(** C3: after [commit n] on a manager whose current state is [s], [undo]
    hands back exactly [s] and makes it current; [redo] after that undo
    hands back exactly [n] and restores the manager as it was after the
    commit; a commit after the undo leaves an empty redo stack, on which
    [redo] fails; and [undo] on an empty undo stack fails and changes
    nothing. *)
Theorem history_commit_undo_redo h n m (redo_stack : list S) :
  let s := History.current h in
  let committed := History.commit h n in
  let undone := {| History._current := s;
                   History._undo := History._undo h;
                   History._redo := [n] |} in
  let idle := {| History._current := s;
                 History._undo := [];
                 History._redo := redo_stack |} in
  History.undo committed = (Some s, undone)
  ∧ History.current undone = s
  ∧ History.redo undone = (Some n, committed)
  ∧ History.current committed = n
  ∧ History._redo (History.commit undone m) = []
  ∧ History.redo (History.commit undone m) = (None, History.commit undone m)
  ∧ History.undo idle = (None, idle).
Proof.
  intros s committed undone idle.
  assert (Hundo : History.undo committed = (Some s, undone)).
  { subst committed undone s. unfold History.commit, History.current.
    rewrite undo_after_push. reflexivity. }
  assert (Hredo : History.redo undone = (Some n, committed)).
  { subst committed undone s. unfold History.commit, History.current.
    change [n] with ([] ++ [n]). rewrite redo_after_push. reflexivity. }
  split; [exact Hundo|]. split; [reflexivity|].
  split; [exact Hredo|]. split; [reflexivity|].
  split; [reflexivity|]. split; reflexivity.
Qed.
End HistoryFacts.

(** ** Loot *)

Section LootFacts.
Context {R : Type} {pynum : PyNum R}.
Implicit Types (state s : GameState R) (material key : string) (multiplier amount : R).

Lemma held_apply_loot_amount s material amount :
  held (_apply_loot_amount s material amount) material
  = num_add (held s material) amount.
Proof.
  unfold held, _apply_loot_amount.
  destruct (resources s !! material) as [r|] eqn:Hr; simpl.
  - rewrite lookup_insert_eq. reflexivity.
  - destruct (consumables s !! material) as [c|] eqn:Hc; simpl.
    + rewrite Hr, lookup_insert_eq. reflexivity.
    + rewrite lookup_insert_eq. reflexivity.
Qed.

Lemma apply_loot_amount_frame s material amount key :
  key ≠ material →
  resources (_apply_loot_amount s material amount) !! key = resources s !! key
  ∧ consumables (_apply_loot_amount s material amount) !! key = consumables s !! key.
Proof.
  intros Hne. unfold _apply_loot_amount.
  destruct (resources s !! material); simpl.
  - rewrite lookup_insert_ne by congruence. done.
  - destruct (consumables s !! material); simpl;
      rewrite lookup_insert_ne by congruence; done.
Qed.

Lemma apply_loot_amount_beyond s material amount :
  beyond_amounts (_apply_loot_amount s material amount) = beyond_amounts s
  ∧ total_diamonds_gain (_apply_loot_amount s material amount) = total_diamonds_gain s.
Proof.
  unfold _apply_loot_amount.
  destruct (resources s !! material); [done|].
  destruct (consumables s !! material); done.
Qed.

Lemma held_frame s s' key :
  resources s' !! key = resources s !! key →
  consumables s' !! key = consumables s !! key →
  held s' key = held s key.
Proof. unfold held. intros -> ->. reflexivity. Qed.

Lemma loot_step_fst multiplier s results material amount :
  (loot_step multiplier (s, results) (material, amount)).1
  = _apply_loot_amount
      (if bool_decide (material = "Diamond")
       then set_total_diamonds_gain
              (num_add (total_diamonds_gain s) (drop_value multiplier material amount)) s
       else s)
      material (drop_value multiplier material amount).
Proof.
  unfold loot_step, drop_value, multiplier_applies; simpl.
  destruct (bool_decide (material = "Gold" ∨ material = "Diamond")); reflexivity.
Qed.

Lemma foldl_loot_step_fst multiplier drops s results results' :
  (foldl (loot_step multiplier) (s, results) drops).1
  = (foldl (loot_step multiplier) (s, results') drops).1.
Proof.
  revert s results results'.
  induction drops as [|[material amount] drops IH]; intros s results results'; [done|].
  simpl.
  destruct (loot_step multiplier (s, results) (material, amount)) as [s1 r1] eqn:E1.
  destruct (loot_step multiplier (s, results') (material, amount)) as [s2 r2] eqn:E2.
  assert (s1 = s2) as ->.
  { apply (f_equal fst) in E1, E2. rewrite loot_step_fst in E1, E2. simpl in *. congruence. }
  apply IH.
Qed.

(** The loop over a drop table, on a list of drops with distinct
    materials. *)
Lemma apply_drops_spec multiplier drops :
  NoDup drops.*1 →
  ∀ s,
    let s' := (apply_drops multiplier drops s).1 in
    (∀ material amount, (material, amount) ∈ drops →
       held s' material = num_add (held s material) (drop_value multiplier material amount))
    ∧ (∀ key, key ∉ drops.*1 →
         resources s' !! key = resources s !! key
         ∧ consumables s' !! key = consumables s !! key)
    ∧ (∀ amount, ("Diamond", amount) ∈ drops →
         total_diamonds_gain s' = num_add (total_diamonds_gain s) amount)
    ∧ ("Diamond" ∉ drops.*1 → total_diamonds_gain s' = total_diamonds_gain s)
    ∧ beyond_amounts s' = beyond_amounts s.
Proof.
  unfold apply_drops.
  induction drops as [|[material0 amount0] drops IH]; intros Hnodup s; cbn [foldl].
  { simpl. repeat split; try done. intros ? ? Hin. by apply elem_of_nil in Hin.
    intros ? Hin. by apply elem_of_nil in Hin. }
  apply NoDup_cons in Hnodup as [Hfresh Hnodup].
  destruct (loot_step multiplier (s, []) (material0, amount0)) as [s1 r1] eqn:E1.
  rewrite (foldl_loot_step_fst _ _ _ r1 []).
  pose proof (f_equal fst E1) as Hs1. rewrite loot_step_fst in Hs1. simpl in Hs1.
  set (v0 := drop_value multiplier material0 amount0) in *.
  set (s0 := if bool_decide (material0 = "Diamond")
             then set_total_diamonds_gain (num_add (total_diamonds_gain s) v0) s
             else s) in *.
  assert (Hs0r : resources s0 = resources s) by (subst s0; case_bool_decide; done).
  assert (Hs0c : consumables s0 = consumables s) by (subst s0; case_bool_decide; done).
  assert (Hs0b : beyond_amounts s0 = beyond_amounts s) by (subst s0; case_bool_decide; done).
  assert (Hheld0 : ∀ key, held s0 key = held s key).
  { intros key. apply held_frame; congruence. }
  destruct (IH Hnodup s1) as (IHin & IHout & IHdia & IHnodia & IHbeyond).
  clear IH. simpl in *.
  set (s' := (foldl (loot_step multiplier) (s1, []) drops).1) in *.
  split; [|split; [|split; [|split]]].
  - intros material amount Hin. apply elem_of_cons in Hin as [Heq|Hin].
    + injection Heq as -> ->.
      destruct (IHout material0 Hfresh) as [Hr Hc].
      rewrite (held_frame s1 s' material0 Hr Hc), <- Hs1.
      rewrite held_apply_loot_amount, Hheld0. reflexivity.
    + rewrite (IHin material amount Hin). f_equal.
      assert (material ≠ material0) as Hne.
      { intros ->. apply Hfresh. apply list_elem_of_fmap. by exists (material0, amount). }
      rewrite <- Hs1.
      destruct (apply_loot_amount_frame s0 material0 v0 material Hne) as [Hr Hc].
      rewrite (held_frame _ _ _ Hr Hc). apply Hheld0.
  - intros key Hkey. apply not_elem_of_cons in Hkey as [Hne Hkey].
    destruct (IHout key Hkey) as [-> ->]. rewrite <- Hs1.
    destruct (apply_loot_amount_frame s0 material0 v0 key Hne) as [-> ->].
    rewrite Hs0r, Hs0c. done.
  - intros amount Hin. apply elem_of_cons in Hin as [Heq|Hin].
    + injection Heq as <- <-.
      rewrite IHnodia by exact Hfresh. rewrite <- Hs1.
      rewrite (proj2 (apply_loot_amount_beyond _ _ _)).
      subst s0 v0. rewrite bool_decide_eq_true_2 by done. simpl.
      unfold drop_value. rewrite bool_decide_eq_true_2 by (by right). reflexivity.
    + rewrite (IHdia amount Hin). f_equal. rewrite <- Hs1.
      rewrite (proj2 (apply_loot_amount_beyond _ _ _)).
      subst s0. rewrite bool_decide_eq_false_2; [done|].
      intros ->. apply Hfresh. apply list_elem_of_fmap. by exists ("Diamond", amount).
  - intros Hkey. apply not_elem_of_cons in Hkey as [Hne Hkey].
    rewrite IHnodia by exact Hkey. rewrite <- Hs1.
    rewrite (proj2 (apply_loot_amount_beyond _ _ _)).
    subst s0. rewrite bool_decide_eq_false_2; [done|]. congruence.
  - rewrite IHbeyond, <- Hs1, (proj1 (apply_loot_amount_beyond _ _ _)). exact Hs0b.
Qed.
End LootFacts.

Section LootTheorem.
Context {R : Type} {pynum : PyNum R}.
Implicit Types (state s : GameState R) (material key : string) (multiplier amount : R).

Lemma dict_truthy_false {V} (d : gmap string V) : dict_truthy d = false → d = ∅.
Proof.
  unfold dict_truthy. intros Hd. apply map_to_list_empty_iff.
  destruct (map_to_list d); [done|discriminate].
Qed.

Lemma not_elem_of_map_keys {V} (d : gmap string V) key :
  d !! key = None → key ∉ (map_to_list d).*1.
Proof.
  intros Hnone Hin. apply list_elem_of_fmap in Hin as [[k v] [-> Hin]].
  apply elem_of_map_to_list in Hin. simpl in Hnone. congruence.
Qed.

(** C4: applying an enemy's drop table [drops] with multiplier
    [multiplier] adds to the bucket of every material outside Gold and
    Diamond its base amount times the multiplier, adds to the buckets of
    Gold and Diamond their base amounts whatever the multiplier, and adds
    the Diamond amount to [total_diamonds_gain]; the buckets of materials
    outside the table and all other fields stay as they were. *)
Theorem loot_scales_all_but_currency s enemy multiplier (drops : gmap string R)
    (Hdrops : drops_of s enemy = Some drops) :
  let s' := (_apply_enemy_loot s enemy multiplier).1 in
  (∀ material base,
     drops !! material = Some base → material ≠ "Gold" → material ≠ "Diamond" →
     held s' material = num_add (held s material) (num_mul base multiplier))
  ∧ (∀ material base,
       drops !! material = Some base → material = "Gold" ∨ material = "Diamond" →
       held s' material = num_add (held s material) base)
  ∧ (∀ base, drops !! "Diamond" = Some base →
       total_diamonds_gain s' = num_add (total_diamonds_gain s) base)
  ∧ (drops !! "Diamond" = None → total_diamonds_gain s' = total_diamonds_gain s)
  ∧ (∀ key, drops !! key = None →
       resources s' !! key = resources s !! key
       ∧ consumables s' !! key = consumables s !! key)
  ∧ beyond_amounts s' = beyond_amounts s.
Proof.
  unfold _apply_enemy_loot. rewrite Hdrops.
  destruct (dict_truthy drops) eqn:Htruthy; simpl.
  - destruct (apply_drops_spec multiplier (map_to_list drops)
                (NoDup_fst_map_to_list drops) s)
      as (Hin & Hout & Hdia & Hnodia & Hbeyond).
    simpl in *.
    split; [|split; [|split; [|split; [|split]]]].
    + intros material base Hlook Hgold Hdiamond.
      rewrite (Hin material base) by (by apply elem_of_map_to_list).
      unfold drop_value. rewrite bool_decide_eq_false_2; [done|]. intros [?|?]; done.
    + intros material base Hlook Hcurrency.
      rewrite (Hin material base) by (by apply elem_of_map_to_list).
      unfold drop_value. rewrite bool_decide_eq_true_2; done.
    + intros base Hlook. apply Hdia. by apply elem_of_map_to_list.
    + intros Hlook. apply Hnodia. by apply not_elem_of_map_keys.
    + intros key Hlook. apply Hout. by apply not_elem_of_map_keys.
    + exact Hbeyond.
  - apply dict_truthy_false in Htruthy. subst drops.
    repeat split; try done; intros ? ? Hlook; by rewrite lookup_empty in Hlook.
Qed.
End LootTheorem.

(** ** Crafting *)

Section CraftFacts.
Context {R : Type} {pynum : PyNum R} {pytext : PyText R}.
Implicit Types (state s : GameState R) (key : string) (app : App R).

Lemma clone_normal s : pages_normal s → clone s = s.
Proof. unfold pages_normal, clone. intros ->. by destruct s. Qed.

Lemma clone_amounts s :
  resources (clone s) = resources s
  ∧ consumables (clone s) = consumables s
  ∧ total_diamonds_gain (clone s) = total_diamonds_gain s.
Proof. done. Qed.

Lemma has_bucket_frame s s' key :
  resources s' !! key = resources s !! key →
  consumables s' !! key = consumables s !! key →
  has_bucket s' key = has_bucket s key.
Proof. unfold has_bucket. intros -> ->. reflexivity. Qed.

Lemma apply_delta_spec s key delta :
  has_bucket s key = true →
  ∃ s', _apply_delta s key delta = Some s'
    ∧ held s' key = num_add (held s key) (num_of_Z delta)
    ∧ (∀ k, k ≠ key →
         resources s' !! k = resources s !! k ∧ consumables s' !! k = consumables s !! k)
    ∧ beyond_amounts s' = beyond_amounts s
    ∧ total_diamonds_gain s' = total_diamonds_gain s
    ∧ (∀ k, has_bucket s k = true → has_bucket s' k = true).
Proof.
  unfold has_bucket, _apply_delta, held. intros Hkey.
  destruct (resources s !! key) as [r|] eqn:Hr.
  - eexists; split; [reflexivity|]. simpl. rewrite lookup_insert_eq.
    repeat split; try done.
    + by rewrite lookup_insert_ne.
    + intros k. destruct (decide (k = key)) as [->|Hne].
      * by rewrite lookup_insert_eq.
      * by rewrite lookup_insert_ne.
  - destruct (consumables s !! key) as [c|] eqn:Hc; [|discriminate].
    eexists; split; [reflexivity|]. simpl. rewrite Hr, lookup_insert_eq.
    repeat split; try done.
    + by rewrite lookup_insert_ne.
    + intros k. destruct (decide (k = key)) as [->|Hne].
      * rewrite lookup_insert_eq. by destruct (resources s !! key).
      * by rewrite lookup_insert_ne.
Qed.

Lemma apply_deltas_spec (sign quantity : Z) (entries : list (string * Z)) :
  NoDup entries.*1 →
  ∀ s, Forall (λ entry, has_bucket s entry.1 = true) entries →
  ∃ s', apply_deltas s sign quantity entries = Some s'
    ∧ (∀ key amount, (key, amount) ∈ entries →
         held s' key = num_add (held s key) (num_of_Z (sign * amount * quantity)))
    ∧ (∀ k, k ∉ entries.*1 →
         resources s' !! k = resources s !! k ∧ consumables s' !! k = consumables s !! k)
    ∧ beyond_amounts s' = beyond_amounts s
    ∧ total_diamonds_gain s' = total_diamonds_gain s
    ∧ (∀ k, has_bucket s k = true → has_bucket s' k = true).
Proof.
  induction entries as [|[key0 amount0] entries IH]; intros Hnodup s Hkeys.
  { exists s. repeat split; try done. intros ? ? Hin. by apply elem_of_nil in Hin. }
  apply NoDup_cons in Hnodup as [Hfresh Hnodup].
  apply Forall_cons in Hkeys as [Hkey0 Hkeys]. simpl in Hkey0.
  destruct (apply_delta_spec s key0 (sign * amount0 * quantity) Hkey0)
    as (s1 & Hstep & Hheld1 & Hframe1 & Hbeyond1 & Hgain1 & Hbuckets1).
  destruct (IH Hnodup s1) as (s' & Hrun & Hin & Hout & Hbeyond & Hgain & Hbuckets).
  { eapply Forall_impl; [exact Hkeys|]. intros entry. apply Hbuckets1. }
  exists s'. simpl. rewrite Hstep. split; [exact Hrun|].
  split; [|split; [|split; [|split]]].
  - intros key amount Hmem. apply elem_of_cons in Hmem as [Heq|Hmem].
    + injection Heq as -> ->.
      destruct (Hout key0 Hfresh) as [Hr Hc].
      unfold held at 1. rewrite Hr, Hc. exact Hheld1.
    + rewrite (Hin key amount Hmem). f_equal.
      assert (key ≠ key0) as Hne.
      { intros ->. apply Hfresh. apply list_elem_of_fmap. by exists (key0, amount). }
      destruct (Hframe1 key Hne) as [Hr Hc]. unfold held. by rewrite Hr, Hc.
  - intros k Hk. apply not_elem_of_cons in Hk as [Hne Hk].
    destruct (Hout k Hk) as [-> ->]. by apply Hframe1.
  - congruence.
  - congruence.
  - intros k Hk. by apply Hbuckets, Hbuckets1.
Qed.

Lemma recipes_distinct recipe : recipe ∈ RECIPES → recipe_distinct recipe.
Proof.
  revert recipe. apply Forall_forall. unfold recipe_distinct.
  compute_done.
Qed.

Lemma recipes_use_builtin_keys recipe key :
  recipe ∈ RECIPES →
  key ∈ (recipe_costs recipe ++ recipe_outputs recipe).*1 →
  key ∈ RESOURCE_KEYS ++ CONSUMABLE_KEYS.
Proof.
  intros Hrecipe. revert key. apply Forall_forall. revert recipe Hrecipe.
  apply Forall_forall. compute_done.
Qed.

(** What [_craft] builds for a recipe that names each material once, on a
    state that has a bucket for each of them. *)
Lemma crafted_spec s recipe quantity :
  recipe_distinct recipe →
  Forall (λ entry, has_bucket s entry.1 = true)
         (recipe_costs recipe ++ recipe_outputs recipe) →
  ∃ s', crafted s recipe quantity = Some s'
    ∧ (∀ key amount, (key, amount) ∈ recipe_costs recipe →
         held s' key = num_add (held s key) (num_of_Z (- (quantity * amount))))
    ∧ (∀ key amount, (key, amount) ∈ recipe_outputs recipe →
         held s' key = num_add (held s key) (num_of_Z (quantity * amount)))
    ∧ (∀ k, k ∉ (recipe_costs recipe ++ recipe_outputs recipe).*1 →
         resources s' !! k = resources s !! k ∧ consumables s' !! k = consumables s !! k)
    ∧ beyond_amounts s' = beyond_amounts (clone s)
    ∧ total_diamonds_gain s' = total_diamonds_gain s.
Proof.
  unfold recipe_distinct, crafted. rewrite fmap_app.
  intros Hnodup Hkeys.
  apply NoDup_app in Hnodup as (Hcosts & Hdisjoint & Houtputs).
  apply Forall_app in Hkeys as [Hkcosts Hkoutputs].
  destruct (apply_deltas_spec (-1) quantity (recipe_costs recipe) Hcosts (clone s))
    as (s1 & Hrun1 & Hin1 & Hout1 & Hbeyond1 & Hgain1 & Hbuckets1).
  { eapply Forall_impl; [exact Hkcosts|]. intros entry Hb.
    rewrite <- Hb. by apply has_bucket_frame. }
  destruct (apply_deltas_spec 1 quantity (recipe_outputs recipe) Houtputs s1)
    as (s' & Hrun2 & Hin2 & Hout2 & Hbeyond2 & Hgain2 & Hbuckets2).
  { eapply Forall_impl; [exact Hkoutputs|]. intros entry Hb.
    apply Hbuckets1. rewrite <- Hb. by apply has_bucket_frame. }
  exists s'. rewrite Hrun1. simpl. split; [exact Hrun2|].
  split; [|split; [|split; [|split]]].
  - intros key amount Hmem.
    assert (key ∈ (recipe_costs recipe).*1) as Hkey.
    { apply list_elem_of_fmap. exists (key, amount). split; [reflexivity|exact Hmem]. }
    destruct (Hout2 key (Hdisjoint key Hkey)) as [Hr Hc].
    unfold held at 1. rewrite Hr, Hc. fold (held s1 key).
    rewrite (Hin1 key amount Hmem). do 2 f_equal. lia.
  - intros key amount Hmem.
    assert (key ∉ (recipe_costs recipe).*1) as Hkey.
    { intros Hkey. apply (Hdisjoint key Hkey).
      apply list_elem_of_fmap. exists (key, amount). split; [reflexivity|exact Hmem]. }
    rewrite (Hin2 key amount Hmem).
    destruct (Hout1 key Hkey) as [Hr Hc].
    f_equal; [|f_equal; lia]. unfold held. by rewrite Hr, Hc.
  - intros k Hk. apply not_elem_of_app in Hk as [Hk1 Hk2].
    destruct (Hout2 k Hk2) as [-> ->]. by apply Hout1.
  - congruence.
  - rewrite Hgain2, Hgain1. reflexivity.
Qed.
End CraftFacts.

Section CraftTheorems.
Context {R : Type} {pynum : PyNum R} {pytext : PyText R}.
Implicit Types (state s : GameState R) (key : string) (app : App R).

Lemma recipe_buckets s recipe :
  recipe ∈ RECIPES →
  material_keys_present s = true →
  Forall (λ entry, has_bucket s entry.1 = true)
         (recipe_costs recipe ++ recipe_outputs recipe).
Proof.
  intros Hrecipe Hkeys. apply Forall_forall. intros entry Hentry.
  unfold material_keys_present in Hkeys.
  apply (proj1 (forallb_forall _ _) Hkeys). apply list_elem_of_In.
  apply (recipes_use_builtin_keys recipe _ Hrecipe).
  apply list_elem_of_fmap. exists entry. split; [reflexivity|exact Hentry].
Qed.

(** A craft with a positive quantity commits what [crafted] builds. *)
Lemma craft_commits app recipe quantity s' :
  _parse_int (quantity_var app) = Some quantity →
  0 < quantity →
  crafted (app_state app) recipe quantity = Some s' →
  _craft recipe app = _commit_state app s'.
Proof.
  intros Hparse Hpos Hcrafted. unfold _craft. rewrite Hparse.
  rewrite bool_decide_eq_false_2 by lia. rewrite Hcrafted. reflexivity.
Qed.

Lemma craft_rejects app recipe :
  match _parse_int (quantity_var app) with
  | Some quantity => quantity <= 0
  | None => True
  end →
  _craft recipe app = set_quantity_var "1" app.
Proof.
  unfold _craft. destruct (_parse_int (quantity_var app)) as [quantity|]; [|done].
  intros Hle. rewrite bool_decide_eq_true_2 by exact Hle. reflexivity.
Qed.

End CraftTheorems.

Section CraftExact.
Import Exact.
Context {pytext : PyText Q}.
Implicit Types (app : App Q) (key : string).

End CraftExact.

(** ** Notoriety, hunts and the other handlers *)

Section NotorietyFacts.
Context {R : Type} {pynum : PyNum R}.
Implicit Types (state s : GameState R) (genre : string).

Lemma clamp_notoriety_range value : 0 <= clamp_notoriety value <= 200.
Proof. unfold clamp_notoriety. lia. Qed.

Lemma base_genres_elem genre :
  genre ∈ BASE_GENRES ↔
  genre = "Romance" ∨ genre = "Adventure" ∨ genre = "Comedy"
  ∨ genre = "Tragedy" ∨ genre = "Suspense".
Proof.
  unfold BASE_GENRES. rewrite !elem_of_cons, elem_of_nil. tauto.
Qed.

Lemma not_base_genre genre :
  genre ≠ "Suspense" → genre ≠ "Tragedy" → genre ≠ "Comedy" →
  genre ≠ "Adventure" → genre ≠ "Romance" → genre ∉ BASE_GENRES.
Proof. rewrite base_genres_elem. intros ? ? ? ? ? Hor. repeat destruct Hor as [Hor|Hor]; congruence. Qed.

Lemma fresh_notoriety_ok : notoriety_ok (fresh_state (R:=R)).
Proof.
  intros genre.
  unfold fresh_state; cbn [notoriety BASE_GENRES fmap list_fmap list_to_map foldr fst snd].
  insert_cases genre ltac:(split; [compute_done|lia]).
  rewrite lookup_empty. by apply not_base_genre.
Qed.

(** A dictionary built by assigning an in-range value to each base genre
    of the fresh dictionary. *)
Lemma base_assignment_ok (v1 v2 v3 v4 v5 : Z) genre :
  0 <= v1 <= 200 → 0 <= v2 <= 200 → 0 <= v3 <= 200 → 0 <= v4 <= 200 → 0 <= v5 <= 200 →
  match (<["Suspense" := v5]> (<["Tragedy" := v4]> (<["Comedy" := v3]>
           (<["Adventure" := v2]> (<["Romance" := v1]>
              (notoriety (fresh_state (R:=R)))))))) !! genre with
  | Some value => genre ∈ BASE_GENRES ∧ 0 <= value <= 200
  | None => genre ∉ BASE_GENRES
  end.
Proof.
  intros H1 H2 H3 H4 H5.
  insert_cases genre ltac:(split; [compute_done|assumption]).
  apply fresh_notoriety_ok.
Qed.

Lemma from_dict_notoriety_ok (data : Doc R) : notoriety_ok (from_dict data).
Proof.
  intros genre. unfold from_dict.
  cbn [notoriety set_resources set_consumables set_notoriety set_enemy_drops
       set_genre_pages set_total_hunts set_current_run_hunts set_chapter_position
       set_current_chapter_length set_current_chapter_genre
       set_current_chapter_progress set_postscript_length
       set_pending_chapter_choices set_run_fantasy_available
       set_postscript_extended set_run_mallets_spent set_total_mallets_spent
       set_pending_choices_locked set_total_diamonds_gain BASE_GENRES foldl].
  apply base_assignment_ok; apply clamp_notoriety_range.
Qed.

Lemma adjust_notoriety_ok s selected_genre increase :
  selected_genre ∈ BASE_GENRES → notoriety_ok s →
  notoriety_ok (_adjust_notoriety s selected_genre increase).
Proof.
  intros Hsel Hok genre. unfold _adjust_notoriety. cbn [notoriety set_notoriety].
  rewrite map_lookup_imap, lookup_insert.
  specialize (Hok genre).
  destruct (decide (selected_genre = genre)) as [->|Hne]; simpl.
  - rewrite bool_decide_eq_true_2 by reflexivity.
    split; [exact Hsel|apply clamp_notoriety_range].
  - destruct (notoriety s !! genre) as [value|]; simpl; [|exact Hok].
    rewrite bool_decide_eq_false_2 by congruence.
    destruct Hok as [Hbase Hrange].
    case_bool_decide; (split; [exact Hbase|lia]).
Qed.

(** What [_adjust_notoriety] leaves under each key. *)
Lemma adjust_notoriety_lookup s selected_genre increase genre :
  notoriety (_adjust_notoriety s selected_genre increase) !! genre
  = if decide (genre = selected_genre)
    then Some (clamp_notoriety
                 (default 0 (notoriety s !! selected_genre) + increase))
    else (λ value, if bool_decide (value > 1) then value - 1 else value)
           <$> notoriety s !! genre.
Proof.
  unfold _adjust_notoriety. cbn [notoriety set_notoriety].
  rewrite map_lookup_imap, lookup_insert.
  destruct (decide (genre = selected_genre)) as [->|Hne].
  - rewrite decide_True by reflexivity. simpl.
    by rewrite bool_decide_eq_true_2 by reflexivity.
  - rewrite decide_False by congruence.
    destruct (notoriety s !! genre) as [value|]; simpl; [|reflexivity].
    rewrite bool_decide_eq_false_2 by exact Hne.
    by case_bool_decide.
Qed.

Lemma notoriety_ok_dom s :
  notoriety_ok s → dom (notoriety s) = list_to_set BASE_GENRES.
Proof.
  intros Hok. apply set_eq. intros genre.
  rewrite elem_of_dom, elem_of_list_to_set. specialize (Hok genre).
  destruct (notoriety s !! genre) as [value|].
  - split; [intros _; apply Hok|by eexists].
  - split; [by intros [? ?]|contradiction].
Qed.

Lemma fantasy_decay_ok s :
  notoriety_ok s →
  notoriety_ok (set_notoriety ((λ value, Z.max 0 (value - 20)) <$> notoriety s) s).
Proof.
  intros Hok genre. cbn [notoriety set_notoriety]. rewrite lookup_fmap.
  specialize (Hok genre).
  destruct (notoriety s !! genre) as [value|]; simpl; [|exact Hok].
  destruct Hok as [Hbase Hrange]. split; [exact Hbase|lia].
Qed.

Lemma pick_by_weight_elem pick cumulative (weights : list (string * Z)) genre :
  pick_by_weight pick cumulative weights = Some genre → genre ∈ weights.*1.
Proof.
  revert cumulative. induction weights as [|[g w] weights IH]; intros cumulative; simpl.
  - discriminate.
  - destruct (Qle_bool pick (inject_Z (cumulative + w))).
    + intros [= ->]. apply list_elem_of_here.
    + intros Hrest. apply list_elem_of_further. by apply (IH (cumulative + w)).
Qed.

Lemma page_weights_genres s genre :
  genre ∈ (page_weights s).*1 → genre ∈ BASE_GENRES ++ [FANTASY_GENRE].
Proof.
  unfold page_weights. intros Hin.
  apply list_elem_of_fmap in Hin as [[g w] [-> Hin]].
  apply list_elem_of_omap in Hin as (g' & Hg' & Hsome).
  case_bool_decide; [|discriminate]. injection Hsome as -> _. exact Hg'.
Qed.

Lemma select_genre_known rng s genre :
  _select_genre_by_pages rng s = Some genre → genre ∈ BASE_GENRES ++ [FANTASY_GENRE].
Proof.
  unfold _select_genre_by_pages.
  destruct (page_weights s) as [|weight weights] eqn:Hweights.
  - unfold random_choice. intros Hlook. by apply list_elem_of_lookup_2 in Hlook.
  - rewrite <- Hweights. intros Hsel. apply (page_weights_genres s).
    destruct (pick_by_weight (rng_uniform rng) 0 (page_weights s)) as [g|] eqn:Hpick.
    + injection Hsel as ->. by apply pick_by_weight_elem in Hpick.
    + destruct (last (page_weights s)) as [[g w]|] eqn:Hlast; [|discriminate].
      injection Hsel as <-. apply list_elem_of_fmap. exists (g, w). split; [done|].
      by apply last_Some_elem_of.
Qed.

Lemma select_genre_base rng s genre :
  _select_genre_by_pages rng s = Some genre → genre ≠ FANTASY_GENRE →
  genre ∈ BASE_GENRES.
Proof.
  intros Hsel Hne. apply select_genre_known in Hsel.
  apply elem_of_app in Hsel as [Hbase|Hfantasy]; [exact Hbase|].
  apply list_elem_of_singleton in Hfantasy. contradiction.
Qed.
End NotorietyFacts.

Section HuntFacts.
Context {R : Type} {pynum : PyNum R}.
Implicit Types (state s mid : GameState R) (genre : string) (rng : Rng).

Lemma apply_enemy_loot_beyond s enemy (multiplier : R) :
  beyond_amounts (_apply_enemy_loot s enemy multiplier).1 = beyond_amounts s.
Proof.
  unfold _apply_enemy_loot.
  destruct (drops_of s enemy) as [drops|]; [|reflexivity].
  destruct (dict_truthy drops); [|reflexivity].
  apply (apply_drops_spec multiplier (map_to_list drops) (NoDup_fst_map_to_list drops) s).
Qed.

Lemma beyond_run_fields s s' :
  beyond_amounts s' = beyond_amounts s → run_fields s' = run_fields s.
Proof. unfold beyond_amounts, run_fields. intros Heq. congruence. Qed.

Lemma handle_postscript_hunt_frame rng s rule (multiplier : R) :
  let s' := (_handle_postscript_hunt rng s rule multiplier).1 in
  run_fields s' = run_fields s
  ∧ genre_pages s' = genre_pages s
  ∧ current_chapter_progress s' = current_chapter_progress s
  ∧ total_hunts s' = total_hunts s
  ∧ current_run_hunts s' = current_run_hunts s
  ∧ (notoriety_ok s → notoriety_ok s').
Proof.
  unfold _handle_postscript_hunt.
  destruct (_select_genre_by_pages rng s) as [selected|] eqn:Hsel; [|done].
  case_bool_decide as Hfantasy.
  - pose proof (apply_enemy_loot_beyond s (rule_post_fantasy_enemy rule) multiplier) as Hb.
    destruct (_apply_enemy_loot s (rule_post_fantasy_enemy rule) multiplier) as [s1 drops].
    simpl in *. unfold beyond_amounts in Hb.
    repeat split; try congruence.
    + unfold run_fields; simpl. congruence.
    + intros Hok. apply fantasy_decay_ok. intros genre.
      replace (notoriety s1) with (notoriety s) by congruence. apply Hok.
  - pose proof (apply_enemy_loot_beyond s (rule_post_enemy rule) multiplier) as Hb.
    destruct (_apply_enemy_loot s (rule_post_enemy rule) multiplier) as [s1 drops].
    simpl in *. unfold beyond_amounts in Hb.
    repeat split; try (unfold _adjust_notoriety; simpl; congruence).
    + unfold run_fields, _adjust_notoriety; simpl. congruence.
    + intros Hok. apply adjust_notoriety_ok.
      * by apply (select_genre_base rng s).
      * intros genre. replace (notoriety s1) with (notoriety s) by congruence. apply Hok.
Qed.

Lemma hunt_body_frame cc rng cheese_rule s :
  let mid := hunt_body cc rng cheese_rule s in
  run_fields mid = run_fields s
  ∧ current_chapter_progress mid = current_chapter_progress s + 1
  ∧ (notoriety_ok s → notoriety_ok mid).
Proof.
  unfold hunt_body.
  destruct cheese_rule as [rule|]; [|done].
  set (paid := set_resources _ (clone s)).
  set (counted := set_current_run_hunts _ _).
  set (charged := if cc then _ else counted).
  assert (run_fields charged = run_fields s
          ∧ current_chapter_progress charged = current_chapter_progress s + 1
          ∧ notoriety charged = notoriety s
          ∧ chapter_position charged = chapter_position s) as (Hrun & Hprog & Hnot & Hpos).
  { subst charged counted paid. destruct cc; done. }
  clearbody charged. clear counted paid. simpl.
  case_bool_decide as Hpost.
  - destruct (handle_postscript_hunt_frame rng charged rule
                (if cc then _cc_multiplier else num_of_Z 1))
      as (Hrun' & _ & Hprog' & _ & _ & Hok').
    split; [congruence|]. split; [congruence|].
    intros Hok. apply Hok'. intros genre. rewrite Hnot. apply Hok.
  - destruct (genre_truthy (current_chapter_genre charged)) as [genre|].
    + match goal with |- context [(_apply_enemy_loot ?st ?e ?m).1] =>
        pose proof (apply_enemy_loot_beyond st e m) as Hb;
        destruct (_apply_enemy_loot st e m) as [s1 drops]
      end.
      simpl in *. unfold beyond_amounts in Hb. simpl in Hb.
      split; [unfold run_fields in *; congruence|]. split; [congruence|].
      intros Hok genre'. replace (notoriety s1) with (notoriety s) by congruence. apply Hok.
    + split; [exact Hrun|]. split; [exact Hprog|].
      intros Hok genre'. rewrite Hnot. apply Hok.
Qed.

Lemma perform_hunt_committed cc rng cheese s s' :
  _perform_hunt cc rng cheese s = Committed s' →
  ∃ cheese_type,
    cheese = Some cheese_type
    ∧ chapter_position s ≠ 0
    ∧ hunt_finish rng s (hunt_body cc rng (CHEESE_HUNT_RULES !! cheese_type) s) = Some s'.
Proof.
  unfold _perform_hunt.
  case_bool_decide as Hidle; [discriminate|].
  match goal with |- (if ?c then _ else _) = _ → _ => destruct c; [discriminate|] end.
  destruct cheese as [cheese_type|]; [|discriminate].
  match goal with |- (if ?c then _ else _) = _ → _ => destruct c; [discriminate|] end.
  match goal with |- (if ?c then _ else _) = _ → _ => destruct c; [discriminate|] end.
  match goal with |- (if ?c then _ else _) = _ → _ => destruct c; [discriminate|] end.
  intros Hcommit. exists cheese_type. split; [reflexivity|]. split; [exact Hidle|].
  change (match hunt_finish rng s (hunt_body cc rng (CHEESE_HUNT_RULES !! cheese_type) s) with
          | Some new_state => Committed new_state
          | None => Raised "IndexError"
          end = Committed s') in Hcommit.
  destruct (hunt_finish rng s (hunt_body cc rng (CHEESE_HUNT_RULES !! cheese_type) s));
    [|discriminate].
  injection Hcommit as ->. reflexivity.
Qed.

Lemma handle_chapter_completion_frame rng mid s' :
  _handle_chapter_completion rng mid = Some s' →
  notoriety s' = notoriety mid
  ∧ run_fantasy_available s' = run_fantasy_available mid.
Proof.
  unfold _handle_chapter_completion.
  case_bool_decide; [intros [= <-]; done|].
  cbn [pending_chapter_choices set_pending_choices_locked set_current_chapter_progress
       set_current_chapter_genre set_current_chapter_length].
  destruct (pending_chapter_choices mid); [|intros [= <-]; done].
  match goal with |- context [_generate_next_chapter_choices ?r ?st] =>
    destruct (_generate_next_chapter_choices r st) as [choices|]
  end; simpl; [intros [= <-]; done|discriminate].
Qed.

Lemma hunt_finish_frame rng s mid s' :
  hunt_finish rng s mid = Some s' →
  notoriety s' = notoriety mid
  ∧ (run_fantasy_available s' = run_fantasy_available mid ∨ chapter_position s' = 0)
  ∧ (pending_choices_locked s' = pending_choices_locked mid
     ∨ current_chapter_progress mid >= default 0 (hunt_target s)).
Proof.
  unfold hunt_finish.
  case_bool_decide as Hdone; [|intros [= <-]; auto].
  case_bool_decide as Hpost.
  - intros [= <-]. simpl. auto.
  - intros Hcompletion. apply handle_chapter_completion_frame in Hcompletion as [Hn Hf].
    auto.
Qed.

(** What a committed hunt leaves in place. *)
Lemma perform_hunt_frame cc rng cheese s s' :
  _perform_hunt cc rng cheese s = Committed s' →
  (notoriety_ok s → notoriety_ok s')
  ∧ (run_fantasy_available s' = run_fantasy_available s ∨ chapter_position s' = 0)
  ∧ (pending_choices_locked s' = pending_choices_locked s ∨ hunt_completes s)
  ∧ chapter_position s ≠ 0.
Proof.
  intros Hcommit.
  apply perform_hunt_committed in Hcommit as (cheese_type & -> & Hidle & Hfinish).
  destruct (hunt_body_frame cc rng (CHEESE_HUNT_RULES !! cheese_type) s)
    as (Hrun & Hprog & Hok).
  apply hunt_finish_frame in Hfinish as (Hn & Hflag & Hlock).
  unfold run_fields in Hrun.
  split; [|split; [|split]].
  - intros Hs genre. rewrite Hn. by apply Hok.
  - destruct Hflag as [Hflag|Hzero]; [left; congruence|right; exact Hzero].
  - destruct Hlock as [Hlock|Hreach]; [left; congruence|right].
    unfold hunt_completes. rewrite <- Hprog. exact Hreach.
  - exact Hidle.
Qed.
End HuntFacts.

Section HandlerFacts.
Context {R : Type} {pynum : PyNum R} {pytext : PyText R}.
Implicit Types (state s mid : GameState R) (genre : string) (rng : Rng).

Lemma begin_chapter_frame rng s chapter_number length genre s' :
  _begin_chapter rng s chapter_number length genre = Some s' →
  notoriety s' = notoriety s
  ∧ run_fantasy_available s' = run_fantasy_available s
  ∧ chapter_position s' = chapter_number
  ∧ current_chapter_genre s' = Some genre
  ∧ current_chapter_length s' = Some length
  ∧ pending_choices_locked s' = bool_decide (chapter_number <= TOTAL_CHAPTERS - 1).
Proof.
  unfold _begin_chapter.
  destruct (bool_decide (chapter_number <= TOTAL_CHAPTERS - 1)); [|intros [= <-]; done].
  match goal with |- context [_generate_next_chapter_choices ?r ?st] =>
    destruct (_generate_next_chapter_choices r st) as [choices|]
  end; simpl; [intros [= <-]; done|discriminate].
Qed.

Lemma pay_mallets_frame s cost s' :
  pay_mallets s cost = Some s' →
  beyond_amounts s' = beyond_amounts s
  ∧ consumables s' = consumables s
  ∧ ∃ held, resources s !! "mallets" = Some held
      ∧ resources s' = <["mallets" := num_sub held (num_of_Z cost)]> (resources s).
Proof.
  unfold pay_mallets. destruct (resources s !! "mallets") as [held|]; simpl; [|discriminate].
  intros [= <-]. repeat split. by exists held.
Qed.

Lemma start_random_run_frame rng s s' :
  _start_random_run rng s = Committed s' →
  chapter_position s = 0
  ∧ notoriety s' = notoriety s
  ∧ run_fantasy_available s' = fantasy_unlocked s
  ∧ ∃ genre, current_chapter_genre s' = Some genre
      ∧ genre ∈ _genres_for_selection s (Some (fantasy_unlocked s)).
Proof.
  unfold _start_random_run, _ensure_can_start_run.
  case_bool_decide as Hidle; [|discriminate]. simpl.
  destruct (_genres_for_selection s (Some (fantasy_unlocked s))) as [|g0 genres] eqn:Hgenres;
    [discriminate|].
  destruct (random_choice (rng_choice rng 0%nat) CHAPTER_LENGTHS) as [length|];
    [|discriminate].
  destruct (random_choice (rng_choice rng 1%nat) (g0 :: genres)) as [genre|] eqn:Hgenre;
    [|discriminate].
  match goal with |- context [_begin_chapter ?r ?st ?n ?l ?g] =>
    destruct (_begin_chapter r st n l g) as [started|] eqn:Hbegin
  end; [|discriminate].
  intros [= <-]. apply begin_chapter_frame in Hbegin as (Hn & Hf & _ & Hg & _).
  split; [exact Hidle|]. split; [exact Hn|]. split; [exact Hf|].
  exists genre. split; [exact Hg|].
  unfold random_choice in Hgenre. by apply list_elem_of_lookup_2 in Hgenre.
Qed.

Lemma confirm_manual_start_frame rng length genre s s' :
  _confirm_manual_start rng length genre s = Committed s' →
  notoriety s' = notoriety s
  ∧ run_fantasy_available s' = fantasy_unlocked s
  ∧ current_chapter_genre s' = Some genre
  ∧ (genre = FANTASY_GENRE → fantasy_unlocked s = true).
Proof.
  unfold _confirm_manual_start.
  destruct (mallets_below (clone s) 30); [discriminate|].
  destruct (pay_mallets (clone s) 30) as [paid|] eqn:Hpay; [|discriminate].
  apply pay_mallets_frame in Hpay as (Hb & _).
  assert (notoriety paid = notoriety s) as Hnot.
  { unfold beyond_amounts in Hb. simpl in Hb. congruence. }
  assert (fantasy_unlocked paid = fantasy_unlocked s) as Hunlocked.
  { unfold fantasy_unlocked. by rewrite Hnot. }
  rewrite Hunlocked.
  destruct (bool_decide (genre = FANTASY_GENRE) && negb (fantasy_unlocked s)) eqn:Hlocked;
    [discriminate|].
  match goal with |- context [_begin_chapter ?r ?st ?n ?l ?g] =>
    destruct (_begin_chapter r st n l g) as [started|] eqn:Hbegin
  end; [|discriminate].
  intros [= <-]. apply begin_chapter_frame in Hbegin as (Hn & Hf & _ & Hg & _).
  split; [rewrite Hn; exact Hnot|]. split; [exact Hf|]. split; [exact Hg|].
  intros ->. rewrite bool_decide_eq_true_2 in Hlocked by reflexivity.
  simpl in Hlocked. by destruct (fantasy_unlocked s).
Qed.

Lemma start_manual_run_frame rng length genre s s' :
  _start_manual_run rng length genre s = Committed s' →
  chapter_position s = 0
  ∧ notoriety s' = notoriety s
  ∧ run_fantasy_available s' = fantasy_unlocked s
  ∧ current_chapter_genre s' = Some genre
  ∧ (genre = FANTASY_GENRE → fantasy_unlocked s = true).
Proof.
  unfold _start_manual_run, _ensure_can_start_run.
  case_bool_decide as Hidle; [|discriminate]. simpl.
  destruct (mallets_below s 30); [discriminate|].
  destruct (_genres_for_selection s (Some (fantasy_unlocked s))); [discriminate|].
  intros Hconfirm. split; [exact Hidle|]. by apply (confirm_manual_start_frame rng length).
Qed.

Lemma choose_next_chapter_frame rng choice s s' :
  _choose_next_chapter rng choice s = Committed s' →
  pending_choices_locked s = false
  ∧ notoriety s' = notoriety s
  ∧ run_fantasy_available s' = run_fantasy_available s.
Proof.
  unfold _choose_next_chapter.
  case_bool_decide; [discriminate|].
  cbn [pending_chapter_choices pending_choices_locked clone _copy_chapter_choices].
  destruct (pending_chapter_choices s); [discriminate|].
  destruct (pending_choices_locked s); [discriminate|].
  match goal with |- context [_begin_chapter ?r ?st ?n ?l ?g] =>
    destruct (_begin_chapter r st n l g) as [started|] eqn:Hbegin
  end; [|discriminate].
  intros [= <-]. apply begin_chapter_frame in Hbegin as (Hn & Hf & _).
  split; [reflexivity|]. split; [exact Hn|exact Hf].
Qed.

Lemma choose_next_chapter_locked rng choice s :
  pending_choices_locked s = true →
  ∃ dialog, _choose_next_chapter rng choice s = Rejected dialog.
Proof.
  intros Hlocked. unfold _choose_next_chapter.
  case_bool_decide; [by eexists|].
  cbn [pending_chapter_choices pending_choices_locked clone _copy_chapter_choices].
  destruct (pending_chapter_choices s); [by eexists|].
  rewrite Hlocked. by eexists.
Qed.

Lemma reroll_frame rng s s' :
  _reroll_chapter_choices rng s = Committed s' →
  same_standing s s' ∧ chapter_position s' = chapter_position s.
Proof.
  unfold _reroll_chapter_choices.
  destruct (pending_chapter_choices s); [discriminate|].
  destruct (mallets_below s 3); [discriminate|].
  destruct (mallets_below (clone s) 3); [discriminate|].
  destruct (pay_mallets (clone s) 3) as [paid|] eqn:Hpay; [|discriminate].
  apply pay_mallets_frame in Hpay as (Hb & _).
  destruct (_generate_next_chapter_choices rng paid); [|discriminate].
  intros [= <-]. unfold same_standing, beyond_amounts in *. simpl in *.
  repeat split; congruence.
Qed.

Lemma extend_postscript_frame s s' :
  _extend_postscript s = Committed s' →
  same_standing s s' ∧ chapter_position s' = chapter_position s.
Proof.
  unfold _extend_postscript.
  destruct (negb (bool_decide (chapter_position s = 7))); [discriminate|].
  destruct (mallets_below s 30); [discriminate|].
  destruct (mallets_below (clone s) 30); [discriminate|].
  destruct (pay_mallets (clone s) 30) as [paid|] eqn:Hpay; [|discriminate].
  apply pay_mallets_frame in Hpay as (Hb & _).
  intros [= <-]. unfold same_standing, beyond_amounts in *. simpl in *.
  repeat split; congruence.
Qed.

Lemma press_extend_postscript_frame s s' :
  press_extend_postscript s = Committed s' →
  same_standing s s' ∧ chapter_position s' = chapter_position s.
Proof.
  unfold press_extend_postscript. destruct (extend_state s); [|discriminate].
  apply extend_postscript_frame.
Qed.

Lemma entry_changed_notoriety_frame key raw s s' :
  _entry_changed_notoriety key raw s = Committed s' →
  (notoriety_ok s → notoriety_ok s')
  ∧ run_fantasy_available s' = run_fantasy_available s
  ∧ pending_choices_locked s' = pending_choices_locked s
  ∧ chapter_position s' = chapter_position s.
Proof.
  unfold _entry_changed_notoriety.
  case_bool_decide as Hkey; [|discriminate]. simpl.
  destruct (_parse_int raw) as [value|]; [|discriminate].
  case_bool_decide; [discriminate|].
  intros [= <-]. repeat split. intros Hok genre. cbn [notoriety set_notoriety clone].
  rewrite lookup_insert. case_decide as Heq.
  - subst genre. split; [exact Hkey|apply clamp_notoriety_range].
  - apply Hok.
Qed.

Lemma entry_changed_amount_frame category key raw s s' :
  _entry_changed_amount category key raw s = Committed s' →
  same_standing s s' ∧ chapter_position s' = chapter_position s.
Proof.
  unfold _entry_changed_amount.
  match goal with |- (if ?c then _ else _) = _ → _ => destruct c; [discriminate|] end.
  destruct (_parse_float raw) as [value|]; [|discriminate].
  match goal with |- (if ?c then _ else _) = _ → _ => destruct c; [discriminate|] end.
  intros [= <-]. destruct category; done.
Qed.

Lemma apply_delta_beyond s key delta s' :
  _apply_delta s key delta = Some s' → beyond_amounts s' = beyond_amounts s.
Proof.
  unfold _apply_delta.
  destruct (resources s !! key); [intros [= <-]; done|].
  destruct (consumables s !! key); [intros [= <-]; done|discriminate].
Qed.

Lemma apply_deltas_beyond sign quantity entries s s' :
  apply_deltas s sign quantity entries = Some s' → beyond_amounts s' = beyond_amounts s.
Proof.
  revert s. induction entries as [|[key amount] entries IH]; intros s; simpl.
  - intros [= <-]. reflexivity.
  - destruct (_apply_delta s key (sign * amount * quantity)) as [s1|] eqn:Hstep;
      [|discriminate].
    intros Hrest. rewrite (IH s1 Hrest). exact (apply_delta_beyond s key _ s1 Hstep).
Qed.

Lemma crafted_frame s recipe quantity s' :
  crafted s recipe quantity = Some s' →
  same_standing s s' ∧ chapter_position s' = chapter_position s.
Proof.
  unfold crafted.
  destruct (apply_deltas (clone s) (-1) quantity (recipe_costs recipe)) as [s1|] eqn:Hcosts;
    [|discriminate].
  simpl. intros Houtputs.
  apply apply_deltas_beyond in Hcosts, Houtputs.
  unfold same_standing, beyond_amounts in *. simpl in *. repeat split; congruence.
Qed.
End HandlerFacts.

(** ** Invariants of the application *)

Section AppFacts.
Context {R : Type} {pynum : PyNum R} {pytext : PyText R}.
Implicit Types (state s : GameState R) (app : App R) (P : GameState R → Prop).

Lemma history_all_commit P (h : History.HistoryManager (GameState R)) s' :
  history_all P h → P s' → history_all P (History.commit h s').
Proof.
  intros (Hcurrent & Hundo & Hredo) Hs'. unfold history_all, History.commit; simpl.
  split; [exact Hs'|]. split; [|constructor].
  apply Forall_app. split; [exact Hundo|]. by constructor.
Qed.

Lemma Forall_last_removelast {A} (Q : A → Prop) (l : list A) x :
  last l = Some x → Forall Q l → Q x ∧ Forall Q (removelast l).
Proof.
  intros Hlast Hall. apply last_Some in Hlast as [l' ->].
  rewrite removelast_last. apply Forall_app in Hall as [Hl' Hx].
  split; [by inversion Hx|exact Hl'].
Qed.

Lemma history_all_undo P (h : History.HistoryManager (GameState R)) :
  history_all P h → history_all P (History.undo h).2.
Proof.
  intros (Hcurrent & Hundo & Hredo). unfold History.undo.
  destruct (last (History._undo h)) as [top|] eqn:Hlast; simpl; [|done].
  destruct (Forall_last_removelast P _ _ Hlast Hundo) as [Htop Hrest].
  split; [exact Htop|]. split; [exact Hrest|].
  apply Forall_app. split; [exact Hredo|]. by constructor.
Qed.

Lemma history_all_redo P (h : History.HistoryManager (GameState R)) :
  history_all P h → history_all P (History.redo h).2.
Proof.
  intros (Hcurrent & Hundo & Hredo). unfold History.redo.
  destruct (last (History._redo h)) as [top|] eqn:Hlast; simpl; [|done].
  destruct (Forall_last_removelast P _ _ Hlast Hredo) as [Htop Hrest].
  split; [exact Htop|]. split; [|exact Hrest].
  apply Forall_app. split; [exact Hundo|]. by constructor.
Qed.

Lemma settle_all P app (outcome : Outcome (GameState R)) :
  history_all P (history app) → on_commit P outcome →
  history_all P (history (settle app outcome)).
Proof.
  intros Hall Hcommit. destruct outcome as [s'| |]; simpl; [|exact Hall..].
  by apply history_all_commit.
Qed.

Lemma hunt_keeps_notoriety_ok cc rng cheese s :
  notoriety_ok s → on_commit notoriety_ok (_perform_hunt cc rng cheese s).
Proof.
  intros Hok. destruct (_perform_hunt cc rng cheese s) as [s'| |] eqn:Hhunt; simpl; [|done..].
  by apply (perform_hunt_frame cc rng cheese s s' Hhunt).
Qed.

Lemma notoriety_ok_same s s' : notoriety s' = notoriety s → notoriety_ok s → notoriety_ok s'.
Proof. intros Heq Hok genre. rewrite Heq. apply Hok. Qed.

Lemma batch_hunt_all P rngs cheese_type app :
  (∀ cc rng cheese s, P s → on_commit P (_perform_hunt cc rng cheese s)) →
  history_all P (history app) →
  history_all P (history (_batch_hunt rngs cheese_type app)).
Proof.
  intros Hhunt Hall. unfold _batch_hunt.
  destruct (CHEESE_HUNT_RULES !! cheese_type); [|exact Hall].
  match goal with |- context [if ?c then app else _] => destruct c; [exact Hall|] end.
  match goal with |- context [if ?c then app else _] => destruct c; [exact Hall|] end.
  generalize (seq 0 10). intros hunts. revert app Hall.
  induction hunts as [|i hunts IH]; intros app Hall; simpl; [exact Hall|].
  apply IH. apply settle_all; [exact Hall|]. apply Hhunt. apply Hall.
Qed.

Lemma craft_all recipe app :
  history_all notoriety_ok (history app) →
  history_all notoriety_ok (history (_craft recipe app)).
Proof.
  intros Hall. unfold _craft.
  destruct (_parse_int (quantity_var app)) as [quantity|]; [|exact Hall].
  case_bool_decide; [exact Hall|].
  destruct (crafted (app_state app) recipe quantity) as [s'|] eqn:Hcrafted; [|exact Hall].
  apply history_all_commit; [exact Hall|].
  apply crafted_frame in Hcrafted as [(Hn & _) _].
  apply (notoriety_ok_same (app_state app)); [exact Hn|apply Hall].
Qed.

Lemma perform_keeps_notoriety_ok app (action : Action R) :
  history_all notoriety_ok (history app) →
  history_all notoriety_ok (history (perform app action)).
Proof.
  intros Hall.
  assert (notoriety_ok (app_state app)) as Hok by apply Hall.
  destruct action; cbn [perform].
  - apply settle_all; [exact Hall|].
    destruct (_start_random_run rng (app_state app)) as [s'| |] eqn:Hrun; simpl; [|done..].
    apply start_random_run_frame in Hrun as (_ & Hn & _).
    by apply (notoriety_ok_same (app_state app)).
  - apply settle_all; [exact Hall|].
    destruct (_start_manual_run rng length genre (app_state app)) as [s'| |] eqn:Hrun;
      simpl; [|done..].
    apply start_manual_run_frame in Hrun as (_ & Hn & _).
    by apply (notoriety_ok_same (app_state app)).
  - apply settle_all; [exact Hall|]. by apply hunt_keeps_notoriety_ok.
  - apply batch_hunt_all; [|exact Hall]. intros. by apply hunt_keeps_notoriety_ok.
  - apply settle_all; [exact Hall|].
    destruct (_choose_next_chapter rng choice (app_state app)) as [s'| |] eqn:Hrun;
      simpl; [|done..].
    apply choose_next_chapter_frame in Hrun as (_ & Hn & _).
    by apply (notoriety_ok_same (app_state app)).
  - apply settle_all; [exact Hall|].
    destruct (_reroll_chapter_choices rng (app_state app)) as [s'| |] eqn:Hrun;
      simpl; [|done..].
    apply reroll_frame in Hrun as [(Hn & _) _].
    by apply (notoriety_ok_same (app_state app)).
  - apply settle_all; [exact Hall|].
    destruct (press_extend_postscript (app_state app)) as [s'| |] eqn:Hrun;
      simpl; [|done..].
    apply press_extend_postscript_frame in Hrun as [(Hn & _) _].
    by apply (notoriety_ok_same (app_state app)).
  - by apply craft_all.
  - exact Hall.
  - exact Hall.
  - exact Hall.
  - apply settle_all; [exact Hall|].
    destruct (_entry_changed_notoriety key raw (app_state app)) as [s'| |] eqn:Hrun;
      simpl; [|done..].
    apply entry_changed_notoriety_frame in Hrun as (Hkeep & _). by apply Hkeep.
  - apply settle_all; [exact Hall|].
    destruct (_entry_changed_amount category key raw (app_state app)) as [s'| |] eqn:Hrun;
      simpl; [|done..].
    apply entry_changed_amount_frame in Hrun as [(Hn & _) _].
    by apply (notoriety_ok_same (app_state app)).
  - apply settle_all; [exact Hall|]. simpl. apply from_dict_notoriety_ok.
  - by apply history_all_undo.
  - by apply history_all_redo.
Qed.

Lemma perform_all_keeps_notoriety_ok (actions : list (Action R)) app :
  history_all notoriety_ok (history app) →
  history_all notoriety_ok (history (perform_all app actions)).
Proof.
  unfold perform_all. revert app.
  induction actions as [|action actions IH]; intros app Hall; simpl; [exact Hall|].
  apply IH. by apply perform_keeps_notoriety_ok.
Qed.

(** C1: after any sequence of actions on a fresh application (runs
    started, hunts in chapters and in the postscript, batches of hunts,
    edits of the notoriety, resource and consumable entries, crafts,
    choices, rerolls, extensions, snapshot loads, undo and redo), the
    current state has a notoriety value for every base genre and that
    value lies between 0 and 200. *)
Theorem notoriety_stays_in_range (actions : list (Action R)) :
  let s := app_state (perform_all new_app actions) in
  Forall (λ genre, ∃ value, notoriety s !! genre = Some value ∧ 0 <= value <= 200)
         BASE_GENRES.
Proof.
  intros s.
  assert (notoriety_ok s) as Hok.
  { apply (perform_all_keeps_notoriety_ok actions new_app).
    split; [apply fresh_notoriety_ok|]. split; constructor. }
  apply Forall_forall. intros genre Hgenre. specialize (Hok genre).
  destruct (notoriety s !! genre) as [value|]; [|contradiction].
  exists value. split; [reflexivity|apply Hok].
Qed.
End AppFacts.

(** ** Extending the postscript *)

Section ExtendFacts.
Context {R : Type} {pynum : PyNum R} {pytext : PyText R}.
Implicit Types (state s : GameState R) (app : App R).

Lemma extend_postscript_commits s held :
  resources s !! "mallets" = Some held →
  chapter_position s = 7 →
  mallets_below s 30 = false →
  _extend_postscript s
  = Committed
      (_record_mallet_spend
         (set_postscript_extended true
            (set_postscript_length (postscript_length s + 3)
               (set_resources (<["mallets" := num_sub held (num_of_Z 30)]> (resources s))
                              (clone s)))) 30).
Proof.
  intros Hheld Hpost Hmallets. unfold _extend_postscript.
  rewrite bool_decide_eq_true_2 by exact Hpost. simpl.
  rewrite Hmallets.
  assert (mallets_below (clone s) 30 = false) as -> by exact Hmallets.
  unfold pay_mallets. cbn [resources clone]. rewrite Hheld. reflexivity.
Qed.

End ExtendFacts.

(** ** The bonus genre *)

Section FantasyFacts.
Context {R : Type} {pynum : PyNum R} {pytext : PyText R}.
Implicit Types (state s : GameState R) (app : App R) (rng : Rng).

Lemma fantasy_not_base : FANTASY_GENRE ∉ BASE_GENRES.
Proof. compute_done. Qed.

Lemma genres_for_selection_fantasy s (fantasy_available : bool) :
  FANTASY_GENRE ∈ _genres_for_selection s (Some fantasy_available)
  ↔ fantasy_available = true.
Proof.
  unfold _genres_for_selection; simpl. destruct fantasy_available.
  - split; [done|]. intros _. compute_done.
  - split; [|discriminate]. intros Hin. by apply fantasy_not_base in Hin.
Qed.

Lemma fantasy_unlocked_spec s :
  dom (notoriety s) = list_to_set BASE_GENRES →
  fantasy_unlocked s = true
  ↔ Forall (λ genre, ∃ value, notoriety s !! genre = Some value ∧ 80 < value) BASE_GENRES.
Proof.
  intros Hdom. unfold fantasy_unlocked. rewrite forallb_forall, Forall_forall. split.
  - intros Hall genre Hgenre.
    assert (genre ∈ dom (notoriety s)) as Hkey.
    { rewrite Hdom. by apply elem_of_list_to_set. }
    apply elem_of_dom in Hkey as [value Hlook].
    exists value. split; [exact Hlook|].
    assert (In (genre, value) (map_to_list (notoriety s))) as Hin.
    { apply list_elem_of_In. by apply elem_of_map_to_list. }
    apply Hall in Hin. simpl in Hin. by apply bool_decide_eq_true_1 in Hin.
  - intros Hall [genre value] Hin. apply list_elem_of_In, elem_of_map_to_list in Hin.
    simpl. apply bool_decide_eq_true_2.
    assert (genre ∈ BASE_GENRES) as Hbase.
    { apply (elem_of_list_to_set (C:=gset string)). rewrite <- Hdom.
      apply elem_of_dom. by exists value. }
    destruct (Hall genre Hbase) as (value' & Hlook & Hgt). congruence.
Qed.

Lemma choices_loop_genres rng genres shuffles available lengths choices :
  (∀ k pool, rng_shuffle rng k pool ⊆ pool) →
  available ⊆ genres →
  choices_loop rng genres shuffles available lengths = Some choices →
  Forall (λ choice, choice_genre choice ∈ genres) choices.
Proof.
  intros Hshuffle. revert shuffles available choices.
  induction lengths as [|length lengths IH]; intros shuffles available choices Hsub; simpl.
  - intros [= <-]. constructor.
  - set (refilled := match available with
                     | [] => (S shuffles, rng_shuffle rng shuffles genres)
                     | _ => (shuffles, available)
                     end).
    assert (refilled.2 ⊆ genres) as Hrefilled.
    { subst refilled. destruct available; simpl; [apply Hshuffle|exact Hsub]. }
    destruct refilled as [shuffles' available']. simpl in Hrefilled.
    destruct (last available') as [genre|] eqn:Hlast; [|discriminate].
    destruct (choices_loop rng genres shuffles' (removelast available') lengths)
      as [rest|] eqn:Hrest; [|discriminate].
    simpl. intros [= <-].
    apply last_Some in Hlast as [front ->]. rewrite removelast_last in Hrest.
    constructor.
    + simpl. apply Hrefilled. apply elem_of_app. right. apply list_elem_of_here.
    + apply (IH shuffles' front rest); [|exact Hrest].
      intros genre' Hin. apply Hrefilled. apply elem_of_app. by left.
Qed.

Lemma generate_choices_genres rng s choices :
  (∀ k pool, rng_shuffle rng k pool ⊆ pool) →
  _generate_next_chapter_choices rng s = Some choices →
  Forall (λ choice,
            choice_genre choice ∈ _genres_for_selection s (Some (run_fantasy_available s)))
         choices.
Proof.
  intros Hshuffle. unfold _generate_next_chapter_choices.
  apply choices_loop_genres; [exact Hshuffle|apply Hshuffle].
Qed.

Lemma app_state_settle app (outcome : Outcome (GameState R)) :
  app_state (settle app outcome)
  = match outcome with Committed s' => s' | _ => app_state app end.
Proof. by destruct outcome. Qed.

Lemma batch_hunt_flag rngs cheese_type app :
  chapter_position (app_state app) ≠ 0 →
  flag_kept (app_state app) (app_state (_batch_hunt rngs cheese_type app)).
Proof.
  intros Hrun. unfold _batch_hunt.
  destruct (CHEESE_HUNT_RULES !! cheese_type); [|by left].
  match goal with |- context [if ?c then app else _] => destruct c; [by left|] end.
  match goal with |- context [if ?c then app else _] => destruct c; [by left|] end.
  generalize (seq 0 10). intros hunts.
  assert (flag_kept (app_state app) (app_state app)) as Hkept by (by left).
  revert Hkept. generalize (app_state app) at 1 3. intros s0. clear Hrun.
  revert app. induction hunts as [|i hunts IH]; intros app Hkept; simpl; [exact Hkept|].
  apply IH. rewrite app_state_settle.
  destruct (_perform_hunt (cc_enabled app) (rngs i) (Some cheese_type) (app_state app))
    as [s'| |] eqn:Hhunt; [|exact Hkept..].
  apply perform_hunt_frame in Hhunt as (_ & Hflag & _ & Hpos).
  destruct Hkept as [Hkept|Hidle]; [|contradiction].
  destruct Hflag as [Hflag|Hover]; [left; congruence|by right].
Qed.

Lemma perform_flag_kept app (action : Action R) :
  within_run action = true →
  chapter_position (app_state app) ≠ 0 →
  flag_kept (app_state app) (app_state (perform app action)).
Proof.
  intros Hkind Hrun.
  destruct action; try discriminate; cbn [perform]; rewrite ?app_state_settle.
  - destruct (_start_random_run rng (app_state app)) as [s'| |] eqn:Hstep; [|by left..].
    apply start_random_run_frame in Hstep as (Hidle & _). contradiction.
  - destruct (_start_manual_run rng length genre (app_state app)) as [s'| |] eqn:Hstep;
      [|by left..].
    apply start_manual_run_frame in Hstep as (Hidle & _). contradiction.
  - destruct (_perform_hunt (cc_enabled app) rng cheese_type (app_state app))
      as [s'| |] eqn:Hstep; [|by left..].
    by apply perform_hunt_frame in Hstep as (_ & Hflag & _).
  - by apply batch_hunt_flag.
  - destruct (_choose_next_chapter rng choice (app_state app)) as [s'| |] eqn:Hstep;
      [|by left..].
    apply choose_next_chapter_frame in Hstep as (_ & _ & Hflag). by left.
  - destruct (_reroll_chapter_choices rng (app_state app)) as [s'| |] eqn:Hstep;
      [|by left..].
    apply reroll_frame in Hstep as [(_ & Hflag & _) _]. by left.
  - destruct (press_extend_postscript (app_state app)) as [s'| |] eqn:Hstep; [|by left..].
    apply press_extend_postscript_frame in Hstep as [(_ & Hflag & _) _]. by left.
  - unfold _craft. destruct (_parse_int (quantity_var app)) as [quantity|]; [|by left].
    case_bool_decide; [by left|].
    destruct (crafted (app_state app) recipe quantity) as [s'|] eqn:Hstep; [|by left].
    apply crafted_frame in Hstep as [(_ & Hflag & _) _]. by left.
  - by left.
  - by left.
  - by left.
  - destruct (_entry_changed_notoriety key raw (app_state app)) as [s'| |] eqn:Hstep;
      [|by left..].
    apply entry_changed_notoriety_frame in Hstep as (_ & Hflag & _). by left.
  - destruct (_entry_changed_amount category key raw (app_state app)) as [s'| |] eqn:Hstep;
      [|by left..].
    apply entry_changed_amount_frame in Hstep as [(_ & Hflag & _) _]. by left.
Qed.

End FantasyFacts.

(** ** The lock on the pending choices *)

Section LockFacts.
Context {R : Type} {pynum : PyNum R} {pytext : PyText R}.
Implicit Types (state s : GameState R) (rng : Rng).

Lemma start_random_run_locks rng s s' :
  _start_random_run rng s = Committed s' → pending_choices_locked s' = true.
Proof.
  unfold _start_random_run.
  destruct (negb (_ensure_can_start_run s)); [discriminate|].
  destruct (_genres_for_selection s (Some (fantasy_unlocked s))) as [|g0 genres];
    [discriminate|].
  destruct (random_choice (rng_choice rng 0%nat) CHAPTER_LENGTHS) as [length|];
    [|discriminate].
  destruct (random_choice (rng_choice rng 1%nat) (g0 :: genres)) as [genre|];
    [|discriminate].
  match goal with |- context [_begin_chapter ?r ?st ?n ?l ?g] =>
    destruct (_begin_chapter r st n l g) as [started|] eqn:Hbegin
  end; [|discriminate].
  intros [= <-]. by apply begin_chapter_frame in Hbegin as (_ & _ & _ & _ & _ & ->).
Qed.

Lemma start_manual_run_locks rng length genre s s' :
  _start_manual_run rng length genre s = Committed s' → pending_choices_locked s' = true.
Proof.
  unfold _start_manual_run, _confirm_manual_start.
  destruct (negb (_ensure_can_start_run s)); [discriminate|].
  destruct (mallets_below s 30); [discriminate|].
  destruct (_genres_for_selection s (Some (fantasy_unlocked s))); [discriminate|].
  destruct (mallets_below (clone s) 30); [discriminate|].
  destruct (pay_mallets (clone s) 30) as [paid|]; [|discriminate].
  match goal with |- (if ?c then _ else _) = _ → _ => destruct c; [discriminate|] end.
  match goal with |- context [_begin_chapter ?r ?st ?n ?l ?g] =>
    destruct (_begin_chapter r st n l g) as [started|] eqn:Hbegin
  end; [|discriminate].
  intros [= <-]. by apply begin_chapter_frame in Hbegin as (_ & _ & _ & _ & _ & ->).
Qed.

Lemma locked_hunt_rejections cc rng cheese s dialog :
  pending_choices_locked s = true →
  _perform_hunt cc rng cheese s = Rejected dialog →
  dialog ≠ "Select chapter".
Proof.
  intros Hlocked. unfold _perform_hunt. rewrite Hlocked, andb_false_r. simpl.
  case_bool_decide; [intros [= <-]; discriminate|].
  destruct cheese as [cheese_type|]; [|intros [= <-]; discriminate].
  match goal with |- (if ?c then _ else _) = _ → _ =>
    destruct c; [intros [= <-]; discriminate|] end.
  match goal with |- (if ?c then _ else _) = _ → _ =>
    destruct c; [intros [= <-]; discriminate|] end.
  match goal with |- (if ?c then _ else _) = _ → _ =>
    destruct c; [intros [= <-]; discriminate|] end.
  match goal with |- match ?c with _ => _ end = _ → _ => destruct c; discriminate end.
Qed.

(** C2, as amended: while [pending_choices_locked] is set, choosing the
    next chapter is rejected; a hunt is never turned away with "Choose the
    next chapter before continuing", and a hunt that commits leaves the
    lock set unless it completes the current chapter; every other handler
    that commits a state made from this one (a reroll, an extension, an
    edit of an entry, a craft, the start of a run) leaves the lock set. *)
Theorem lock_blocks_selection_only s (Hlocked : pending_choices_locked s = true) :
  (∀ rng choice, ∃ dialog, _choose_next_chapter rng choice s = Rejected dialog)
  ∧ (∀ cc rng cheese dialog,
       _perform_hunt cc rng cheese s = Rejected dialog → dialog ≠ "Select chapter")
  ∧ (∀ cc rng cheese s',
       _perform_hunt cc rng cheese s = Committed s' →
       pending_choices_locked s' = true ∨ hunt_completes s)
  ∧ (∀ s',
       (∃ rng, _reroll_chapter_choices rng s = Committed s')
       ∨ press_extend_postscript s = Committed s'
       ∨ (∃ key raw, _entry_changed_notoriety key raw s = Committed s')
       ∨ (∃ category key raw, _entry_changed_amount category key raw s = Committed s')
       ∨ (∃ recipe quantity, crafted s recipe quantity = Some s')
       ∨ (∃ rng, _start_random_run rng s = Committed s')
       ∨ (∃ rng length genre, _start_manual_run rng length genre s = Committed s') →
       pending_choices_locked s' = true).
Proof.
  split; [|split; [|split]].
  - intros rng choice. by apply choose_next_chapter_locked.
  - intros cc rng cheese dialog. by apply locked_hunt_rejections.
  - intros cc rng cheese s' Hhunt.
    apply perform_hunt_frame in Hhunt as (_ & _ & [Hlock|Hdone] & _);
      [left; congruence|right; exact Hdone].
  - intros s' [[rng Hstep]|[Hstep|[(key & raw & Hstep)|[(category & key & raw & Hstep)|
               [(recipe & quantity & Hstep)|[[rng Hstep]|(rng & length & genre & Hstep)]]]]]].
    + apply reroll_frame in Hstep as [(_ & _ & Hlock) _]. congruence.
    + apply press_extend_postscript_frame in Hstep as [(_ & _ & Hlock) _]. congruence.
    + apply entry_changed_notoriety_frame in Hstep as (_ & _ & Hlock & _). congruence.
    + apply entry_changed_amount_frame in Hstep as [(_ & _ & Hlock) _]. congruence.
    + apply crafted_frame in Hstep as [(_ & _ & Hlock) _]. congruence.
    + by apply start_random_run_locks in Hstep.
    + by apply start_manual_run_locks in Hstep.
Qed.
End LockFacts.

(** ** Snapshots *)

Section SnapshotFacts.
Context {R : Type} {pynum : PyNum R}.
Implicit Types (state s : GameState R) (data : Doc R).

(** Two states with the same fields are the same state. *)
Lemma state_ext (s1 s2 : GameState R) :
  resources s1 = resources s2 →
  consumables s1 = consumables s2 →
  notoriety s1 = notoriety s2 →
  enemy_drops s1 = enemy_drops s2 →
  genre_pages s1 = genre_pages s2 →
  total_hunts s1 = total_hunts s2 →
  current_run_hunts s1 = current_run_hunts s2 →
  chapter_position s1 = chapter_position s2 →
  current_chapter_length s1 = current_chapter_length s2 →
  current_chapter_genre s1 = current_chapter_genre s2 →
  current_chapter_progress s1 = current_chapter_progress s2 →
  postscript_length s1 = postscript_length s2 →
  pending_chapter_choices s1 = pending_chapter_choices s2 →
  run_fantasy_available s1 = run_fantasy_available s2 →
  postscript_extended s1 = postscript_extended s2 →
  run_mallets_spent s1 = run_mallets_spent s2 →
  total_mallets_spent s1 = total_mallets_spent s2 →
  total_diamonds_gain s1 = total_diamonds_gain s2 →
  pending_choices_locked s1 = pending_choices_locked s2 →
  s1 = s2.
Proof. destruct s1, s2; simpl. intros. subst. reflexivity. Qed.

Lemma lookup_keyed_map {V} (f : string → V) (keys : list string) key :
  (list_to_map ((λ k, (k, f k)) <$> keys) : gmap string V) !! key
  = if decide (key ∈ keys) then Some (f key) else None.
Proof.
  induction keys as [|k keys IH]; cbn [fmap list_fmap list_to_map foldr fst snd].
  - rewrite lookup_empty. by rewrite decide_False by apply not_elem_of_nil.
  - rewrite lookup_insert. destruct (decide (k = key)) as [->|Hne].
    + by rewrite decide_True by apply list_elem_of_here.
    + rewrite IH. destruct (decide (key ∈ keys)) as [Hin|Hout].
      * by rewrite decide_True by (by apply list_elem_of_further).
      * rewrite decide_False; [done|]. intros Hin. apply elem_of_cons in Hin as [->|Hin]; done.
Qed.

Lemma amounts_for_lookup keys (raw : gmap string R) key :
  amounts_for keys raw !! key
  = if decide (key ∈ keys) then Some (default (num_of_Z 0) (raw !! key)) else None.
Proof. apply (lookup_keyed_map (λ k, default (num_of_Z 0) (raw !! k))). Qed.

(** The amounts [from_dict] stores for a fixed list of keys. *)
Lemma loaded_amounts_lookup keys (raw : gmap string R) key :
  dict_update (amounts_for keys raw) (amounts_for keys ∅) !! key
  = if decide (key ∈ keys) then Some (default (num_of_Z 0) (raw !! key)) else None.
Proof.
  unfold dict_update. rewrite lookup_union, !amounts_for_lookup.
  by destruct (decide (key ∈ keys)).
Qed.

Lemma fresh_resources : resources (fresh_state (R:=R)) = amounts_for RESOURCE_KEYS ∅.
Proof.
  apply map_eq. intros key. unfold fresh_state. cbn [resources].
  rewrite amounts_for_lookup, (lookup_keyed_map (λ _, num_of_Z 0)).
  destruct (decide (key ∈ RESOURCE_KEYS)); [|done]. by rewrite lookup_empty.
Qed.

Lemma fresh_consumables : consumables (fresh_state (R:=R)) = amounts_for CONSUMABLE_KEYS ∅.
Proof.
  apply map_eq. intros key. unfold fresh_state. cbn [consumables].
  rewrite amounts_for_lookup, (lookup_keyed_map (λ _, num_of_Z 0)).
  destruct (decide (key ∈ CONSUMABLE_KEYS)); [|done]. by rewrite lookup_empty.
Qed.

Lemma loaded_amounts_same keys (held : gmap string R) :
  dom held = list_to_set keys →
  dict_update (amounts_for keys held) (amounts_for keys ∅) = held.
Proof.
  intros Hdom. apply map_eq. intros key. rewrite loaded_amounts_lookup.
  destruct (decide (key ∈ keys)) as [Hin|Hout].
  - assert (key ∈ dom held) as Hkey by (rewrite Hdom; by apply elem_of_list_to_set).
    apply elem_of_dom in Hkey as [amount Hamount]. by rewrite Hamount.
  - symmetry. apply not_elem_of_dom. rewrite Hdom. by rewrite elem_of_list_to_set.
Qed.

Lemma loaded_notoriety_lookup (raw : gmap string Z) genre :
  foldl (λ notoriety genre,
           let value := default 0 (raw !! genre) in
           <[genre := clamp_notoriety value]> notoriety)
        (notoriety (fresh_state (R:=R))) BASE_GENRES !! genre
  = if decide (genre ∈ BASE_GENRES)
    then Some (clamp_notoriety (default 0 (raw !! genre))) else None.
Proof.
  unfold fresh_state. cbn [notoriety BASE_GENRES foldl fmap list_fmap list_to_map foldr fst snd].
  destruct (decide _) as [Hbase|Hother].
  - apply base_genres_elem in Hbase.
    repeat (destruct Hbase as [->|Hbase]; [by simplify_map_eq|]).
    subst. by simplify_map_eq.
  - assert (∀ g, g ∈ BASE_GENRES → genre ≠ g) as Hne by (intros g Hg ->; done).
    rewrite !lookup_insert_ne, lookup_empty; [done|..];
      intros <-; apply Hother; compute_done.
Qed.

Lemma loaded_notoriety_same (held : gmap string Z) :
  dom held = list_to_set BASE_GENRES →
  foldl (λ notoriety genre,
           let value := default 0 (held !! genre) in
           <[genre := clamp_notoriety value]> notoriety)
        (notoriety (fresh_state (R:=R))) BASE_GENRES
  = clamp_notoriety <$> held.
Proof.
  intros Hdom. apply map_eq. intros genre.
  rewrite loaded_notoriety_lookup, lookup_fmap.
  destruct (decide (genre ∈ BASE_GENRES)) as [Hin|Hout].
  - assert (genre ∈ dom held) as Hkey by (rewrite Hdom; by apply elem_of_list_to_set).
    apply elem_of_dom in Hkey as [value Hvalue]. by rewrite Hvalue.
  - assert (held !! genre = None) as ->; [|done].
    apply not_elem_of_dom. rewrite Hdom. by rewrite elem_of_list_to_set.
Qed.

Lemma backfilled_drops_same (drops : gmap string (gmap string R)) :
  dom (DEFAULT_ENEMY_DROPS (R:=R)) ⊆ dom drops →
  dict_update drops DEFAULT_ENEMY_DROPS ∪ DEFAULT_ENEMY_DROPS = drops.
Proof.
  intros Hsub. unfold dict_update. apply map_eq. intros enemy.
  rewrite !lookup_union.
  destruct (drops !! enemy) as [table|] eqn:Hdrops; simpl.
  - by destruct (DEFAULT_ENEMY_DROPS !! enemy).
  - assert (DEFAULT_ENEMY_DROPS (R:=R) !! enemy = None) as ->; [|done].
    apply not_elem_of_dom. intros Hin. apply Hsub in Hin.
    apply elem_of_dom in Hin as [? ?]. congruence.
Qed.

Lemma backfilled_drops (raw : gmap string (gmap string R)) :
  dict_update raw DEFAULT_ENEMY_DROPS ∪ DEFAULT_ENEMY_DROPS = raw ∪ DEFAULT_ENEMY_DROPS.
Proof.
  unfold dict_update. apply map_eq. intros enemy. rewrite !lookup_union.
  destruct (raw !! enemy); destruct (DEFAULT_ENEMY_DROPS !! enemy); done.
Qed.

End SnapshotFacts.

(** ** The program on concrete inputs *)

Section ConcreteRuns.
Import Exact.

Lemma mallet_recipe_listed : mallet_recipe ∈ RECIPES.
Proof. do 4 apply list_elem_of_further. apply list_elem_of_here. Qed.

(** The spec's loot scenario: the T2 mouse under multiplier 2 adds twice
    2.43 Machinery but exactly 16500 Gold. *)
Lemma tier_two_loot_doubles_machinery_only :
  held (_apply_enemy_loot fresh_state "T2 mouse" 2%Q).1 "Machinery" = (243 # 50)%Q
  ∧ held (_apply_enemy_loot fresh_state "T2 mouse" 2%Q).1 "Gold" = 16500%Q.
Proof.
  assert (drops_of (fresh_state (R:=Q)) "T2 mouse"
          = Some (<["Machinery" := (243 # 100)%Q]> {["Gold" := 16500%Q]})) as Hdrops.
  { vm_compute. reflexivity. }
  destruct (loot_scales_all_but_currency fresh_state "T2 mouse" 2%Q _ Hdrops)
    as (Hscaled & Hflat & _).
  split.
  - rewrite (Hscaled "Machinery" (243 # 100)%Q); [|reflexivity|discriminate..].
    vm_compute. reflexivity.
  - rewrite (Hflat "Gold" 16500%Q); [|reflexivity|by left].
    vm_compute. reflexivity.
Defined.




(** The handler by itself does not look at the extended flag: called on
    the state the first extension committed, which still holds thirty
    mallets, it extends again.  Only the disabled button stands in the
    way. *)
Lemma handler_extends_regardless_of_flag :
  match press_extend_postscript (app_state rich_postscript_app) with
  | Committed s' =>
      postscript_extended s' = true
      ∧ match _extend_postscript s' with
        | Committed s'' => postscript_length s'' = 16
        | Rejected _ | Raised _ => False
        end
  | Rejected _ | Raised _ => False
  end.
Proof. vm_compute. split; reflexivity. Qed.


(** C2 fails as stated: in the first chapter of a run the lock is set,
    and a T1 hunt commits a state with one more hunt and one cheese less
    instead of being rejected. *)
Lemma locked_state_hunts :
  pending_choices_locked (app_state chapter_one_app) = true
  ∧ current_chapter_progress (app_state chapter_one_app) = 0
  ∧ resources (app_state chapter_one_app) !! "T1 cheese" = Some 5%Q
  ∧ match _perform_hunt true first_rng (Some "T1") (app_state chapter_one_app) with
    | Committed s' =>
        current_chapter_progress s' = 1
        ∧ resources s' !! "T1 cheese" = Some 4%Q
        ∧ pending_choices_locked s' = true
    | Rejected _ | Raised _ => False
    end.
Proof. vm_compute. repeat split; reflexivity. Qed.

(** In that locked state a pending choice cannot be taken. *)
Lemma locked_choice_rejected :
  ∃ dialog,
    _choose_next_chapter first_rng {| choice_length := 10; choice_genre := "Suspense" |}
      (app_state chapter_one_app)
    = Rejected dialog.
Proof.
  assert (pending_choices_locked (app_state chapter_one_app) = true) as Hlocked
    by (vm_compute; reflexivity).
  exact (proj1 (lock_blocks_selection_only (app_state chapter_one_app) Hlocked)
           first_rng {| choice_length := 10; choice_genre := "Suspense" |}).
Defined.

(** C5 at the boundary: a postscript T1 hunt that draws Romance raises
    Romance by 25 and lowers Tragedy from 5 to 4, but leaves Adventure at
    1 (and Comedy at 0): the decay of the other genres stops at 1, not at
    0. *)
Theorem postscript_decay_stops_at_one :
  notoriety (app_state postscript_app) !! "Adventure" = Some 1
  ∧ match _perform_hunt false first_rng (Some "T1") (app_state postscript_app) with
    | Committed s' =>
        notoriety s' !! "Romance" = Some 25
        ∧ notoriety s' !! "Adventure" = Some 1
        ∧ notoriety s' !! "Tragedy" = Some 4
        ∧ notoriety s' !! "Comedy" = Some 0
    | Rejected _ | Raised _ => False
    end.
Proof. vm_compute. repeat split; reflexivity. Qed.

Lemma overshoot_state_keys : builtin_keys overshoot_state.
Proof.
  unfold builtin_keys, pages_normal.
  split; [vm_compute; reflexivity|]. split; [vm_compute; reflexivity|].
  split; [vm_compute; reflexivity|]. split; [vm_compute; reflexivity|].
  compute_done.
Qed.


End ConcreteRuns.
